(** * barplexity: a shallow embedding of [main.py]

    The Flask application is embedded as handlers in a state-and-exception
    monad over a [World]: the SQLAlchemy view of the three tables, the
    history of committed snapshots, the Flask session dictionary, the queue
    of flashed messages, the log of prompts sent to the Gemini client, the
    value of [db.func.now()] and the record of the views the unit of work
    went through. *)

From stdpp Require Import gmap strings list fin_maps sorting.
From Stdlib Require Import ZArith Ascii String.

Local Open Scope string_scope.
Local Open Scope Z_scope.

(** ** Python values and strings *)

(** The values the handlers put in the Flask session dictionary:
    [user.id] (an integer) and [user.name] (a string). *)
Inductive pyval : Type :=
  | PyInt (z : Z)
  | PyStr (s : string).

#[global] Instance pyval_eq_dec : EqDecision pyval.
Proof. solve_decision. Defined.

(** A Python [str] is a sequence of code points. It is held here as its
    UTF-8 encoding, one [ascii] per byte, so that equality and concatenation
    are those of the bytes, while lengths and slices count code points: a
    code point is a byte that is not a continuation byte, with the
    continuation bytes that follow it. *)

(** The line feed of the f-strings. *)
Definition nl : string := String "010"%char EmptyString.

(** The bytes [10xxxxxx]. *)
Definition is_continuation (b : ascii) : bool :=
  let n := nat_of_ascii b in (128 <=? n)%nat && (n <? 192)%nat.

(** [len(s)] *)
Fixpoint py_len (s : string) : nat :=
  match s with
  | EmptyString => O
  | String b r => if is_continuation b then py_len r else S (py_len r)
  end.

(** [s[:n]]: the first [n] code points, or all of [s] when it is shorter. *)
Fixpoint slice_to (n : nat) (s : string) : string :=
  match s with
  | EmptyString => EmptyString
  | String b r =>
      if is_continuation b then String b (slice_to n r)
      else match n with
           | O => EmptyString
           | S n' => String b (slice_to n' r)
           end
  end.

(** The payload bits of the first byte of a code point. *)
Definition lead_bits (b : ascii) : Z :=
  let n := Z.of_nat (nat_of_ascii b) in
  if n <? 128 then n
  else if n <? 224 then n - 192
  else if n <? 240 then n - 224
  else n - 240.

(** The code points of a string; [cur] is the code point being read. *)
Fixpoint code_points_from (cur : option Z) (s : string) : list Z :=
  match s with
  | EmptyString => match cur with Some c => [c] | None => [] end
  | String b r =>
      if is_continuation b
      then code_points_from ((fun c => 64 * c + (Z.of_nat (nat_of_ascii b) - 128)) <$> cur) r
      else match cur with
           | Some c => c :: code_points_from (Some (lead_bits b)) r
           | None => code_points_from (Some (lead_bits b)) r
           end
  end.

Definition code_points (s : string) : list Z := code_points_from None s.

(** [f"{v}"] for a value that is a string or [None]. *)
Definition fmt (v : option string) : string :=
  match v with
  | Some s => s
  | None => "None"
  end.

(** Truthiness of a string or [None]: [None] and the empty string are
    falsy. *)
Definition truthy (v : option string) : bool :=
  match v with
  | Some (String _ _) => true
  | _ => false
  end.

(** ** [int(s)] on a string

    As CPython does it: a string that is not ASCII is first rewritten,
    Unicode white space to a blank and decimal digits of any script to
    ASCII digits, stopping at [?] for any other character; then leading and
    trailing ASCII white space is dropped, one sign is allowed, and single
    underscores may separate digits. More than 4300 digits are refused
    (the default of [sys.set_int_max_str_digits]). [None] stands for the
    [ValueError]. The tables are those of Unicode 14.0. *)
Module PyInt.

(** The code points with decimal value zero; each starts a run of ten
    digits. *)
Definition decimal_zeros : list Z :=
  [48; 1632; 1776; 1984; 2406; 2534; 2662; 2790; 2918; 3046; 3174; 3302; 3430;
   3558; 3664; 3792; 3872; 4160; 4240; 6112; 6160; 6470; 6608; 6784; 6800; 6992;
   7088; 7232; 7248; 42528; 43216; 43264; 43472; 43504; 43600; 44016; 65296;
   66720; 68912; 69734; 69872; 69942; 70096; 70384; 70736; 70864; 71248; 71360;
   71472; 71904; 72016; 72784; 73040; 73120; 92768; 92864; 93008; 120782;
   120792; 120802; 120812; 120822; 123200; 123632; 125264; 130032].

(** [Py_UNICODE_TODECIMAL] *)
Definition decimal (c : Z) : option Z :=
  (fun z => c - z) <$> List.find (fun z => (z <=? c) && (c <? z + 10)) decimal_zeros.

(** [Py_UNICODE_ISSPACE] above ASCII. *)
Definition unicode_space (c : Z) : bool :=
  existsb (Z.eqb c) [133; 160; 5760; 8232; 8233; 8239; 8287; 12288]
  || ((8192 <=? c) && (c <=? 8202)).

Definition chr (c : Z) : ascii := ascii_of_nat (Z.to_nat c).

(** [_PyUnicode_TransformDecimalAndSpaceToASCII] on a string that is not
    ASCII. *)
Fixpoint to_ascii (cps : list Z) : string :=
  match cps with
  | [] => EmptyString
  | c :: r =>
      if c <? 127 then String (chr c) (to_ascii r)
      else if unicode_space c then String " " (to_ascii r)
      else match decimal c with
           | Some d => String (chr (48 + d)) (to_ascii r)
           | None => "?"
           end
  end.

Definition transform (s : string) : string :=
  if forallb (fun c => c <? 128) (code_points s) then s else to_ascii (code_points s).

Definition is_space (c : ascii) : bool :=
  let n := nat_of_ascii c in
  ((9 <=? n)%nat && (n <=? 13)%nat) || (n =? 32)%nat.

Definition digit (c : ascii) : option Z :=
  let n := nat_of_ascii c in
  if ((48 <=? n)%nat && (n <=? 57)%nat)%bool then Some (Z.of_nat n - 48) else None.

Fixpoint lstrip (s : string) : string :=
  match s with
  | String c r => if is_space c then lstrip r else s
  | EmptyString => s
  end.

Definition rev_string (s : string) : string :=
  string_of_list_ascii (List.rev (list_ascii_of_string s)).

Definition strip (s : string) : string :=
  rev_string (lstrip (rev_string (lstrip s))).

(** [digits acc after_digit s]: [after_digit] tells whether the previous
    character was a digit, the only place where an underscore or the end
    of the literal may come. *)
Fixpoint digits (acc : Z) (after_digit : bool) (s : string) : option Z :=
  match s with
  | EmptyString => if after_digit then Some acc else None
  | String c r =>
      match digit c with
      | Some d => digits (10 * acc + d) true r
      | None =>
          if (Ascii.eqb c "_" && after_digit)%bool
          then digits acc false r
          else None
      end
  end.

Fixpoint count_digits (s : string) : Z :=
  match s with
  | EmptyString => 0
  | String c r => (match digit c with Some _ => 1 | None => 0 end) + count_digits r
  end.

Definition max_str_digits : Z := 4300.

Definition int (s : string) : option Z :=
  let a := transform s in
  if max_str_digits <? count_digits a then None
  else
    match strip a with
    | String "-" r => Z.opp <$> digits 0 false r
    | String "+" r => digits 0 false r
    | r => digits 0 false r
    end.

End PyInt.

Arguments PyInt.int : simpl never.

(** ** The three tables *)

Module User.
Record t : Type := mk {
  id : Z;
  name : string;
  email : string;
  password : string;
  is_blocked : bool;
  is_banned : bool;
  is_admin : bool
}.

Definition set_is_blocked (b : bool) (u : t) : t :=
  mk (id u) (name u) (email u) (password u) b (is_banned u) (is_admin u).

Definition set_is_banned (b : bool) (u : t) : t :=
  mk (id u) (name u) (email u) (password u) (is_blocked u) b (is_admin u).
End User.

Module ChatSession.
Record t : Type := mk {
  id : Z;
  user_id : Z;
  summary : string;
  timestamp : Z
}.

Definition set_summary (s : string) (c : t) : t :=
  mk (id c) (user_id c) s (timestamp c).
End ChatSession.

Module Chat.
Record t : Type := mk {
  id : Z;
  session_id : Z;
  question : string;
  answer : string;
  timestamp : Z
}.
End Chat.

#[global] Instance User_eq_dec : EqDecision User.t.
Proof. solve_decision. Defined.
#[global] Instance ChatSession_eq_dec : EqDecision ChatSession.t.
Proof. solve_decision. Defined.
#[global] Instance Chat_eq_dec : EqDecision Chat.t.
Proof. solve_decision. Defined.

(** The rows of each table, in rowid order. *)
Record DB : Type := mkDB {
  users : list User.t;
  chat_sessions : list ChatSession.t;
  chats : list Chat.t
}.

(** The rowid SQLite gives to an inserted row of an [INTEGER PRIMARY KEY]
    table: one more than the largest one in use, [1] in an empty table. *)
Definition next_rowid (ids : list Z) : Z :=
  match ids with
  | [] => 1
  | i :: r => 1 + fold_left Z.max r i
  end.

(** ** Queries *)

(** The row that [User.query.get(k)] returns; the call itself, which can
    fail on a key taken from the request, is [query_get] below. *)
Definition User_get (k : Z) (d : DB) : option User.t :=
  List.find (fun u => User.id u =? k) (users d).

(** [User.query.get(session["user_id"])]: the value is the key of a stored
    row, put there by [signin]; no row has a key that is not an integer. *)
Definition User_get_py (v : pyval) (d : DB) : option User.t :=
  match v with
  | PyInt k => User_get k d
  | PyStr _ => None
  end.

(** [User.query.filter_by(email=e).first()]; the column is not nullable, so
    [email=None] matches no row. *)
Definition User_first_by_email (e : option string) (d : DB) : option User.t :=
  match e with
  | Some e => List.find (fun u => String.eqb (User.email u) e) (users d)
  | None => None
  end.

(** The row that [ChatSession.query.get(k)] returns; the call itself is
    [query_get] below. *)
Definition ChatSession_get (k : Z) (d : DB) : option ChatSession.t :=
  List.find (fun s => ChatSession.id s =? k) (chat_sessions d).

(** Insertion into a list kept in ascending order of [key]; an element goes
    after the ones with an equal key, so the sort below is stable. *)
Fixpoint insert_by {A : Type} (key : A -> Z) (x : A) (l : list A) : list A :=
  match l with
  | [] => [x]
  | y :: r => if key x <? key y then x :: y :: r else y :: insert_by key x r
  end.

(** [ORDER BY key ASC], rows with equal keys staying in rowid order. *)
Definition order_by_asc {A : Type} (key : A -> Z) (l : list A) : list A :=
  fold_left (fun acc x => insert_by key x acc) l [].

(** [ORDER BY key DESC]: the ascending order read backwards, so rows with
    equal keys come in descending rowid order. *)
Definition order_by_desc {A : Type} (key : A -> Z) (l : list A) : list A :=
  List.rev (order_by_asc key l).

(** [Chat.query.filter_by(session_id=sid)], also the lazy load of
    [ChatSession.chats]. *)
Definition Chat_filter_by_session (sid : Z) (d : DB) : list Chat.t :=
  List.filter (fun c => Chat.session_id c =? sid) (chats d).

(** [Chat.query.filter_by(session_id=sid).order_by(Chat.timestamp.asc()).all()] *)
Definition Chat_history (sid : Z) (d : DB) : list Chat.t :=
  order_by_asc Chat.timestamp (Chat_filter_by_session sid d).

(** The sidebar query of [chatbot]: the sessions of one user that join at
    least one [Chat] row, newest first. *)
Definition sessions_with_msgs (uid : Z) (d : DB) : list ChatSession.t :=
  order_by_desc ChatSession.timestamp
    (List.filter
       (fun s => (ChatSession.user_id s =? uid)
                 && negb (bool_decide (Chat_filter_by_session (ChatSession.id s) d = [])))
       (chat_sessions d)).

(** [s.chats[0].question[:30] if s.chats else "New Chat"] *)
Definition sidebar_entry (d : DB) (s : ChatSession.t) : Z * string :=
  (ChatSession.id s,
   match Chat_filter_by_session (ChatSession.id s) d with
   | c :: _ => slice_to 30 (Chat.question c)
   | [] => "New Chat"
   end).

(** ** Updates of the unit of work *)

(** An attribute assignment on the loaded [User] object with key [k], which
    the flush writes as [UPDATE user SET ... WHERE user.id = k]. *)
Definition update_user (k : Z) (f : User.t -> User.t) (d : DB) : DB :=
  mkDB (List.map (fun u => if User.id u =? k then f u else u) (users d))
       (chat_sessions d) (chats d).

(** An attribute assignment on the loaded [ChatSession] object with key [k]. *)
Definition update_chat_session (k : Z) (f : ChatSession.t -> ChatSession.t) (d : DB) : DB :=
  mkDB (users d)
       (List.map (fun s => if ChatSession.id s =? k then f s else s) (chat_sessions d))
       (chats d).

(** [db.session.delete(chat_session)]: the relationship
    [chats = db.relationship("Chat", cascade="all, delete-orphan")]
    deletes the owned [Chat] rows with it. *)
Definition delete_chat_session (k : Z) (d : DB) : DB :=
  mkDB (users d)
       (List.filter (fun s => negb (ChatSession.id s =? k)) (chat_sessions d))
       (List.filter (fun c => negb (Chat.session_id c =? k)) (chats d)).

(** The keys of the sessions that [user.sessions] loads. *)
Definition owned_session_ids (uid : Z) (d : DB) : list Z :=
  List.map ChatSession.id
    (List.filter (fun s => ChatSession.user_id s =? uid) (chat_sessions d)).

(** [db.session.delete(user)]: the relationship
    [sessions = db.relationship("ChatSession", cascade="all, delete-orphan")]
    deletes each owned session, and each of these its chats. *)
Definition delete_user_row (uid : Z) (d : DB) : DB :=
  let d' := fold_left (fun acc k => delete_chat_session k acc)
                      (owned_session_ids uid d) d in
  mkDB (List.filter (fun u => negb (User.id u =? uid)) (users d'))
       (chat_sessions d') (chats d').

(** ** The world of a request *)

Record World : Type := mkWorld {
  db : DB;                            (* the tables as the unit of work sees them *)
  committed : list DB;                (* the snapshots written by [commit], newest first *)
  session : gmap string pyval;        (* Flask's [session] *)
  flashes : list (string * string);   (* [flash(message, category)], oldest first *)
  prompts : list string;              (* the prompts given to the Gemini client, oldest first *)
  now : Z;                            (* [db.func.now()] *)
  views : list DB                     (* the tables after each change made through the
                                         unit of work, newest first *)
}.

Inductive exn : Type :=
  | KeyError (key : string)
  | AttributeError
  | TypeError
  | ValueError
  | IntegrityError
  | OverflowError.

Inductive Outcome (A : Type) : Type :=
  | Ok (a : A) (w : World)
  | Fault (e : exn) (w : World).
Arguments Ok {A} a w.
Arguments Fault {A} e w.

Definition M (A : Type) : Type := World -> Outcome A.

#[global] Instance M_ret : MRet M := fun A a w => Ok a w.
#[global] Instance M_bind : MBind M := fun A B k m w =>
  match m w with
  | Ok a w' => k a w'
  | Fault e w' => Fault e w'
  end.

Definition raise {A : Type} (e : exn) : M A := fun w => Fault e w.
Definition gets {A : Type} (f : World -> A) : M A := fun w => Ok (f w) w.
Definition modify (f : World -> World) : M unit := fun w => Ok tt (f w).

(** A change made through the unit of work (an attribute assignment on a
    loaded object, [db.session.add], [db.session.delete]): the tables it
    sees change, and the new view is put on record. *)
Definition with_db (f : DB -> DB) (w : World) : World :=
  mkWorld (f (db w)) (committed w) (session w) (flashes w) (prompts w) (now w)
          (f (db w) :: views w).

(** The integers SQLite stores and binds: signed, 64 bits. *)
Definition int64 (k : Z) : bool := (- 2 ^ 63 <=? k) && (k <? 2 ^ 63).

(** [Model.query.get(k)] for a key taken from the request: the row with
    that key when there is one (a stored key is a 64-bit integer); for a key
    that no row has, [None] when SQLite can bind it, and the
    [OverflowError] of the binding when it cannot. *)
Definition query_get {A : Type} (lookup : Z -> DB -> option A) (k : Z) : M (option A) :=
  fun w =>
    match lookup k (db w) with
    | Some row => Ok (Some row) w
    | None => if int64 k then Ok None w else Fault OverflowError w
    end.

(** [db.session.commit()] *)
Definition commit_db (w : World) : World :=
  mkWorld (db w) (db w :: committed w) (session w) (flashes w) (prompts w) (now w)
          (views w).

Definition commit : M unit := modify commit_db.

(** [flash(message, category)] *)
Definition flashed (message category : string) (w : World) : World :=
  mkWorld (db w) (committed w) (session w)
          (flashes w ++ [(message, category)]) (prompts w) (now w) (views w).

Definition flash (message category : string) : M unit :=
  modify (flashed message category).

(** [key in session] *)
Definition session_has (key : string) : M bool :=
  gets (fun w => bool_decide (is_Some (session w !! key))).

(** [session[key]] *)
Definition session_get (key : string) : M pyval :=
  fun w => match session w !! key with
           | Some v => Ok v w
           | None => Fault (KeyError key) w
           end.

(** [session[key] = v] *)
Definition session_set (key : string) (v : pyval) : M unit :=
  modify (fun w => mkWorld (db w) (committed w) (<[key := v]> (session w))
                           (flashes w) (prompts w) (now w) (views w)).

(** [session.clear()]; Flask keeps the flashed messages in the session, so
    the ones not displayed yet go with it. *)
Definition session_clear : M unit :=
  modify (fun w => mkWorld (db w) (committed w) ∅ [] (prompts w) (now w) (views w)).

(** ** Responses *)

Inductive endpoint : Type :=
  | to_home
  | to_login_page
  | to_admin_dashboard
  | to_chatbot.

Inductive Response : Type :=
  | redirect (target : endpoint)
  | render_barplexity
  | render_login
  | render_admin (listed : list User.t)
  | render_chatbot (sidebar : list (Z * string)) (selected_session : Z)
                   (messages : list Chat.t) (user : pyval)
  | jsonify_reply (reply : string)
  | json_status (status : string) (msg : option string) (code : Z).

Inductive http_method : Type := GET | POST.

(** ** Start-up: [db.create_all()] and the built-in administrator *)

Definition admin_email : string := "admin@barplexity.com".

Definition add_user (name email password : string) (is_admin : bool) (d : DB) : DB :=
  mkDB (users d ++ [User.mk (next_rowid (List.map User.id (users d)))
                            name email password false false is_admin])
       (chat_sessions d) (chats d).

Definition bootstrap : M unit :=
  admin_user ← gets (fun w => User_first_by_email (Some admin_email) (db w));
  match admin_user with
  | Some _ => mret tt
  | None =>
      modify (with_db (add_user "Admin" admin_email "12345678" true));;
      commit
  end.

(** ** Routes *)

(** [GET /] *)
Definition home : M Response := mret render_barplexity.

(** [GET /login_page] *)
Definition login_page : M Response := mret render_login.

(** [POST /signup]; the arguments are [request.form.get] of the three
    fields. Past the first check the three are strings, on which [fmt] is
    the identity. *)
Definition signup (name email password : option string) : M Response :=
  if negb (truthy name) || negb (truthy email) || negb (truthy password) then
    flash "All fields are required!" "error";;
    mret (redirect to_home)
  else
    existing ← gets (fun w => User_first_by_email email (db w));
    match existing with
    | Some _ =>
        flash "Email already registered!" "error";;
        mret (redirect to_login_page)
    | None =>
        modify (with_db (add_user (fmt name) (fmt email) (fmt password) false));;
        commit;;
        flash "Signup successful! Please login." "success";;
        mret (redirect to_login_page)
    end.

(** [POST /signin] *)
Definition signin (email password : option string) : M Response :=
  user ← gets (fun w => User_first_by_email email (db w));
  match user with
  | None =>
      flash "Invalid credentials!" "error";;
      mret (redirect to_login_page)
  | Some user =>
      if User.is_banned user then
        flash "This email is banned. Contact admin." "error";;
        mret (redirect to_home)
      else if User.is_blocked user then
        flash "You are blocked. Contact admin." "error";;
        mret (redirect to_login_page)
      else if bool_decide (Some (User.password user) = password) then
        session_set "user_id" (PyInt (User.id user));;
        session_set "user" (PyStr (User.name user));;
        if User.is_admin user
        then mret (redirect to_admin_dashboard)
        else mret (redirect to_chatbot)
      else
        flash "Invalid credentials!" "error";;
        mret (redirect to_home)
  end.

(** [GET /admin] *)
Definition admin_dashboard : M Response :=
  logged ← session_has "user_id";
  if negb logged then
    flash "Access denied!" "error";;
    mret (redirect to_home)
  else
    uid ← session_get "user_id";
    user ← gets (fun w => User_get_py uid (db w));
    match user with
    | Some user =>
        if User.is_admin user then
          listed ← gets (fun w =>
            List.filter (fun u => negb (String.eqb (User.email u) admin_email))
                        (users (db w)));
          mret (render_admin listed)
        else
          flash "Access denied!" "error";;
          mret (redirect to_home)
    | None =>
        flash "Access denied!" "error";;
        mret (redirect to_home)
    end.

(** [GET /admin/block/<int:user_id>] *)
Definition block_user (user_id : Z) : M Response :=
  user ← query_get User_get user_id;
  match user with
  | Some user =>
      let flip := User.set_is_blocked (negb (User.is_blocked user)) in
      modify (with_db (update_user user_id flip));;
      let user := flip user in
      commit;;
      flash (User.name user +:+ " has been "
             +:+ (if User.is_blocked user then "blocked" else "unblocked") +:+ "!")
            "success"
  | None => mret tt
  end;;
  mret (redirect to_admin_dashboard).

(** [GET /admin/delete/<int:user_id>] *)
Definition delete_user (user_id : Z) : M Response :=
  user ← query_get User_get user_id;
  match user with
  | Some user =>
      modify (with_db (update_user user_id (User.set_is_banned true)));;
      let user := User.set_is_banned true user in
      modify (with_db (delete_user_row user_id));;
      commit;;
      flash (User.name user +:+ " has been deleted and banned!") "success"
  | None => mret tt
  end;;
  mret (redirect to_admin_dashboard).

(** [DELETE /delete-chat/<int:session_id>] *)
Definition delete_chat (session_id : Z) : M Response :=
  logged ← session_has "user";
  if negb logged then
    mret (json_status "error" (Some "Unauthorized") 403)
  else
    chat_session ← query_get ChatSession_get session_id;
    owned ← match chat_session with
            | Some cs =>
                uid ← session_get "user_id";
                mret (bool_decide (PyInt (ChatSession.user_id cs) = uid))
            | None => mret false
            end;
    if owned : bool then
      modify (with_db (delete_chat_session session_id));;
      commit;;
      mret (json_status "success" None 200)
    else
      mret (json_status "error" (Some "Chat not found") 404).

(** [GET /logout] *)
Definition logout : M Response :=
  session_clear;;
  flash "Logged out successfully!" "success";;
  mret (redirect to_login_page).

(** ** The Gemini gateway and the chat routes *)

(** The two loops-and-append statements that build the prompt:
    [prompt = ""], [prompt += f"User: {chat.question}\nBot: {chat.answer}\n"]
    for each previous chat, and [prompt += f"User: {user_message}\nBot:"]. *)
Definition build_prompt (previous_chats : list Chat.t) (user_message : option string) : string :=
  let prompt :=
    fold_left
      (fun prompt chat =>
         prompt +:+ ("User: " +:+ Chat.question chat +:+ nl
                     +:+ "Bot: " +:+ Chat.answer chat +:+ nl))
      previous_chats "" in
  prompt +:+ ("User: " +:+ fmt user_message +:+ nl +:+ "Bot:").

Definition add_chat_session (uid ts : Z) (d : DB) : DB :=
  mkDB (users d)
       (chat_sessions d
          ++ [ChatSession.mk (next_rowid (List.map ChatSession.id (chat_sessions d)))
                             uid "New Chat" ts])
       (chats d).

Definition add_chat (sid : Z) (question answer : string) (ts : Z) (d : DB) : DB :=
  mkDB (users d) (chat_sessions d)
       (chats d ++ [Chat.mk (next_rowid (List.map Chat.id (chats d)))
                            sid question answer ts]).

(** [current_session.id] and the like: an attribute of an object that may
    be [None]. *)
Definition attr {A B : Type} (o : option A) (f : A -> B) : M B :=
  match o with
  | Some a => mret (f a)
  | None => raise AttributeError
  end.

(** The world after one call of the Gemini client. *)
Definition sent (prompt : string) (w : World) : World :=
  mkWorld (db w) (committed w) (session w) (flashes w) (prompts w ++ [prompt]) (now w)
          (views w).

Section Gateway.

(** [client.models.generate_content(model=GEMINI_MODEL, contents=prompt).text]:
    given the prompts sent so far and the new one, the text of the
    response, or the message of the exception the call raises. *)
Variable generate_content : list string -> string -> string + string.

Definition query_gemini_api (prompt : string) : M string :=
  fun w =>
    match generate_content (prompts w) prompt with
    | inl text => Ok text (sent prompt w)
    | inr e => Ok ("Error: " +:+ e) (sent prompt w)
    end.

(** [db.session.add(Chat(...))] followed by [db.session.commit()]: the
    row is written by the commit, which fails on a [None] in the
    non-nullable [question]. *)
Definition add_chat_and_commit (sid : Z) (question : option string) (answer : string) : M unit :=
  match question with
  | Some q =>
      modify (fun w => with_db (add_chat sid q answer (now w)) w);;
      commit
  | None => raise IntegrityError
  end.

(** The body of [if request.method == "POST":] in [chatbot]. *)
Definition chatbot_post (current_session : option ChatSession.t)
    (user_message : option string) : M unit :=
  sid ← attr current_session ChatSession.id;
  previous_chats ← gets (fun w => Chat_history sid (db w));
  bot_reply ← query_gemini_api (build_prompt previous_chats user_message);
  summary ← attr current_session ChatSession.summary;
  (if String.eqb summary "New Chat" then
     match user_message with
     | Some m =>
         modify (with_db (update_chat_session sid (ChatSession.set_summary (slice_to 50 m))))
     | None => raise TypeError
     end
   else mret tt);;
  add_chat_and_commit sid user_message bot_reply.

(** [GET|POST /chatbot]; [session_id] is [request.args.get("session_id")]
    and [message] is [request.form.get("message")]. *)
Definition chatbot (method : http_method) (session_id message : option string) : M Response :=
  logged ← session_has "user";
  if negb logged then mret (redirect to_home)
  else
    uid ← session_get "user_id";
    user ← gets (fun w => User_get_py uid (db w));
    match user with
    | None =>
        session_clear;;
        mret (redirect to_home)
    | Some user =>
        summaries ← gets (fun w =>
          List.map (sidebar_entry (db w)) (sessions_with_msgs (User.id user) (db w)));
        current_session ←
          (if truthy session_id then
             match PyInt.int (fmt session_id) with
             | Some k => query_get ChatSession_get k
             | None => raise ValueError
             end
           else
             modify (fun w => with_db (add_chat_session (User.id user) (now w)) w);;
             commit;;
             gets (fun w => last (chat_sessions (db w))));
        match method with
        | POST => chatbot_post current_session message
        | GET => mret tt
        end;;
        sid ← attr current_session ChatSession.id;
        messages ← gets (fun w => Chat_history sid (db w));
        display_name ← session_get "user";
        mret (render_chatbot summaries sid messages display_name)
    end.

(** [POST /chatbot-api]; the arguments are the two fields read from the
    JSON object of the body: a string or nothing for [message], a number
    or nothing for [session_id]. *)
Definition chatbot_api (message : option string) (session_id : option Z) : M Response :=
  logged ← session_has "user";
  if negb logged then mret (jsonify_reply "Please login first!")
  else
    chat_session ← match session_id with
                   | Some k => query_get ChatSession_get k
                   | None => mret None
                   end;
    match chat_session with
    | None => mret (jsonify_reply "Chat session not found!")
    | Some chat_session =>
        let sid := ChatSession.id chat_session in
        previous_chats ← gets (fun w => Chat_history sid (db w));
        bot_reply ← query_gemini_api (build_prompt previous_chats message);
        add_chat_and_commit sid message bot_reply;;
        mret (jsonify_reply bot_reply)
    end.

End Gateway.

(** ** Names for the outcomes of the other routes *)

(** The refusal of [admin_dashboard]. *)
Definition denied (w : World) : Outcome Response :=
  Ok (redirect to_home) (flashed "Access denied!" "error" w).

(** The message [block_user] flashes, from the row after the toggle. *)
Definition blocked_message (u : User.t) : string :=
  User.name u +:+ " has been "
  +:+ (if User.is_blocked u then "blocked" else "unblocked") +:+ "!".

(** The last [return] of [delete_chat]. *)
Definition chat_not_found (w : World) : Outcome Response :=
  Ok (json_status "error" (Some "Chat not found") 404) w.

(** Older or as old, for rows with a timestamp. *)
Definition key_le {A : Type} (key : A -> Z) (x y : A) : Prop := key x <= key y.

(** The constraints of the [user] table: [id] is the primary key and
    [email] is [unique=True]. *)
Definition keys_unique (d : DB) : Prop :=
  NoDup (List.map User.id (users d)) /\ NoDup (List.map User.email (users d)).

(** ** Names for the effects of the chat routes *)

(** What [query_gemini_api] returns for a result of the client. *)
Definition reply_text (result : string + string) : string :=
  match result with
  | inl text => text
  | inr e => "Error: " +:+ e
  end.

(** The tables after the summary step of [chatbot]. *)
Definition summarised (cs : ChatSession.t) (m : string) (d : DB) : DB :=
  if String.eqb (ChatSession.summary cs) "New Chat"
  then update_chat_session (ChatSession.id cs) (ChatSession.set_summary (slice_to 50 m)) d
  else d.

(** The world after the summary step: the assignment is a change made
    through the unit of work, the other branch is none. *)
Definition summary_step (cs : ChatSession.t) (m : string) (w : World) : World :=
  if String.eqb (ChatSession.summary cs) "New Chat"
  then with_db (update_chat_session (ChatSession.id cs)
                                    (ChatSession.set_summary (slice_to 50 m))) w
  else w.

(** ** The transcript, in the words of the specification *)

(** One earlier turn: a line [User: <question>] and a line [Bot: <answer>]. *)
Definition turn_text (chat : Chat.t) : string :=
  ("User: " +:+ Chat.question chat +:+ nl) +:+ ("Bot: " +:+ Chat.answer chat +:+ nl).

(** The earlier turns one after the other, then the new message and the
    closing marker. *)
Definition transcript (turns : list Chat.t) (message : string) : string :=
  foldr (fun chat rest => turn_text chat +:+ rest)
        (("User: " +:+ message +:+ nl) +:+ "Bot:") turns.

(** ** Sample data *)

Module Sample.

Definition admin : User.t := User.mk 1 "Admin" admin_email "12345678" false false true.
Definition alice : User.t := User.mk 2 "Alice" "a@x.com" "pw1" false false false.
Definition mallory : User.t := User.mk 3 "Mallory" "m@x.com" "pw3" true true false.

Definition fresh : ChatSession.t := ChatSession.mk 1 2 "New Chat" 10.
Definition greeting : ChatSession.t := ChatSession.mk 2 3 "Hello" 20.

Definition hello : Chat.t := Chat.mk 1 2 "Hello" "Hi there" 21.
Definition weather : Chat.t := Chat.mk 2 2 "Weather?" "Sunny" 25.

Definition tables : DB := mkDB [admin; alice; mallory] [fresh; greeting] [hello; weather].

(** Nobody is logged in. *)
Definition anonymous : World := mkWorld tables [tables] ∅ [] [] 30 [].

(** Alice, who is no administrator, is logged in. *)
Definition as_alice : World :=
  mkWorld tables [tables]
          (<["user" := PyStr "Alice"]> (<["user_id" := PyInt 2]> ∅)) [] [] 30 [].

(** A model that answers every prompt with the same text. *)
Definition parrot (history : list string) (prompt : string) : string + string :=
  inl "Sure.".

(** A provider that is down. *)
Definition down (history : list string) (prompt : string) : string + string :=
  inr "503 UNAVAILABLE".

End Sample.

(** ** Further names used by the properties *)

(** The world after the two assignments of a successful [signin]. *)
Definition signed_in (u : User.t) (w : World) : World :=
  mkWorld (db w) (committed w)
          (<["user" := PyStr (User.name u)]> (<["user_id" := PyInt (User.id u)]> (session w)))
          (flashes w) (prompts w) (now w) (views w).

(** Where a successful [signin] sends the user. *)
Definition landing (u : User.t) : endpoint :=
  if User.is_admin u then to_admin_dashboard else to_chatbot.

(** The two keys of the login come and go together. *)
Definition session_coherent (w : World) : Prop :=
  is_Some (session w !! "user") <-> is_Some (session w !! "user_id").

(** Every chat belongs to a stored chat session (the foreign key
    [chat.session_id]). *)
Definition chats_have_sessions (d : DB) : Prop :=
  forall c, In c (chats d) ->
            exists s, In s (chat_sessions d) /\ ChatSession.id s = Chat.session_id c.

(** The same world at a later reading of the clock. *)
Definition at_time (t : Z) (w : World) : World :=
  mkWorld (db w) (committed w) (session w) (flashes w) (prompts w) t (views w).

(** The state of a world after a request, however it ended. *)
Definition final {A : Type} (o : Outcome A) : World :=
  match o with
  | Ok _ w | Fault _ w => w
  end.

(** A second set of sample tables: Bob is blocked and not banned, Alice
    has a session with two chats and an empty one. *)
Module Desk.

Definition admin : User.t := User.mk 1 "Admin" admin_email "12345678" false false true.
Definition alice : User.t := User.mk 2 "Alice" "a@x.com" "pw1" false false false.
Definition bob : User.t := User.mk 3 "Bob" "b@x.com" "pw2" true false false.

Definition travel : ChatSession.t := ChatSession.mk 1 2 "Hello" 10.
Definition bobs : ChatSession.t := ChatSession.mk 2 3 "Hey" 20.
Definition empty : ChatSession.t := ChatSession.mk 3 2 "New Chat" 30.

Definition hello : Chat.t := Chat.mk 1 1 "Hello" "Hi there" 11.
Definition weather : Chat.t := Chat.mk 2 1 "Weather?" "Sunny" 15.
Definition hey : Chat.t := Chat.mk 3 2 "Hey" "Yo" 21.

Definition tables : DB := mkDB [admin; alice; bob] [travel; bobs; empty] [hello; weather; hey].

Definition anonymous : World := mkWorld tables [tables] ∅ [] [] 40 [].

Definition as_alice : World := signed_in alice anonymous.

Definition as_admin : World := signed_in admin anonymous.

(** A model that repeats the number of prompts it has seen. *)
Definition counter (history : list string) (prompt : string) : string + string :=
  inl (if bool_decide (history = []) then "first" else "later").

End Desk.

(** The primary keys of the [chat_session] and [chat] tables. *)
Definition chat_keys_unique (d : DB) : Prop :=
  NoDup (List.map ChatSession.id (chat_sessions d)) /\ NoDup (List.map Chat.id (chats d)).

(** * Properties *)

(** ** [int] and the slices on samples *)

Example int_plain : PyInt.int "42" = Some 42.
Proof. reflexivity. Qed.

Example int_spaces_sign_underscore : PyInt.int " -1_000 " = Some (-1000).
Proof. reflexivity. Qed.

Example int_rejects :
  List.map PyInt.int [""; "abc"; "1__0"; "_1"; "1_"; "+"; "1 2"; "4.5"]
  = [None; None; None; None; None; None; None; None].
Proof. reflexivity. Qed.

Example slice_to_sample : slice_to 3 "Hello" = "Hel" /\ slice_to 50 "Hi" = "Hi".
Proof. split; reflexivity. Qed.

(** Twenty euro signs are sixty bytes and twenty code points. *)
Example slice_to_counts_code_points :
  let euros := "€€€€€€€€€€€€€€€€€€€€" in
  String.length euros = 60%nat /\ py_len euros = 20%nat
  /\ slice_to 50 euros = euros /\ slice_to 2 euros = "€€"
  /\ code_points "a€" = [97; 8364].
Proof. repeat split; reflexivity. Qed.

(** Digits and blanks of other scripts: U+0662, U+0663 U+0664 with an
    underscore, and a no-break space before a digit. *)
Example int_unicode :
  PyInt.int "٢" = Some 2 /\ PyInt.int "٣_٤" = Some 34 /\ PyInt.int " 5" = Some 5
  /\ PyInt.int "€" = None /\ PyInt.int "1€" = None.
Proof. repeat split; reflexivity. Qed.

Example order_by_desc_ties :
  order_by_desc fst [(2, "a"); (1, "b"); (2, "c"); (1, "d")]
  = [(2, "c"); (2, "a"); (1, "d"); (1, "b")].
Proof. reflexivity. Qed.

Example order_by_asc_stable :
  order_by_asc fst [(2, "a"); (1, "b"); (2, "c"); (1, "d")]
  = [(1, "b"); (1, "d"); (2, "a"); (2, "c")].
Proof. reflexivity. Qed.

(** ** Lookups by primary key *)

Ltac run :=
  repeat (progress (unfold mbind, M_bind, mret, M_ret, gets, modify, commit,
                           flash, raise, session_has, session_get, session_set,
                           session_clear, attr, query_get; simpl)).

Lemma User_get_id (k : Z) (d : DB) (u : User.t) :
  User_get k d = Some u -> User.id u = k.
Proof.
  unfold User_get. intros H. apply find_some in H as [_ H]. lia.
Qed.

Lemma User_get_In (k : Z) (d : DB) (u : User.t) :
  User_get k d = Some u -> In u (users d).
Proof.
  unfold User_get. intros H. by apply find_some in H as [H _].
Qed.

Lemma ChatSession_get_id (k : Z) (d : DB) (s : ChatSession.t) :
  ChatSession_get k d = Some s -> ChatSession.id s = k.
Proof.
  unfold ChatSession_get. intros H. apply find_some in H as [_ H]. lia.
Qed.

(** An [UPDATE ... WHERE id = k] that leaves the key alone is seen through
    [User.query.get] as the same change of the row found. *)
Lemma User_get_update_user (k k' : Z) (f : User.t -> User.t) (d : DB) :
  (forall u, User.id (f u) = User.id u) ->
  User_get k' (update_user k f d)
  = if k' =? k then f <$> User_get k' d else User_get k' d.
Proof.
  intros Hid. unfold User_get, update_user. simpl.
  induction (users d) as [|x l IH]; simpl.
  - by destruct (k' =? k).
  - destruct (User.id x =? k) eqn:Exk.
    + rewrite Hid. destruct (User.id x =? k') eqn:Exk'.
      * assert ((k' =? k) = true) as -> by lia. done.
      * apply IH.
    + destruct (User.id x =? k') eqn:Exk'.
      * assert ((k' =? k) = false) as -> by lia. done.
      * apply IH.
Qed.

(** With unique keys, setting a flag of the row with key [k] to the value
    it has is no change at all. *)
Lemma update_user_same_flag (k : Z) (f : User.t -> User.t) (d : DB) (u : User.t) :
  NoDup (List.map User.id (users d)) ->
  User_get k d = Some u ->
  f u = u ->
  update_user k f d = d.
Proof.
  intros Hnd Hget Hf. destruct d as [us ss cs]. unfold update_user, User_get in *.
  simpl in *. f_equal.
  induction us as [|x l IH]; simpl in *; [done|].
  apply NoDup_cons in Hnd as [Hx Hnd].
  destruct (User.id x =? k) eqn:Exk.
  - simplify_eq. rewrite Hf. f_equal.
    clear IH Hf Hnd. induction l as [|y l IH]; simpl in *; [done|].
    apply not_elem_of_cons in Hx as [Hy Hx].
    assert ((User.id y =? k) = false) as -> by lia.
    f_equal. by apply IH.
  - f_equal. by apply IH.
Qed.

Lemma update_user_compose (k : Z) (f g : User.t -> User.t) (d : DB) :
  (forall u, User.id (f u) = User.id u) ->
  update_user k g (update_user k f d) = update_user k (fun u => g (f u)) d.
Proof.
  intros Hid. unfold update_user. simpl. f_equal.
  rewrite List.map_map. apply List.map_ext. intros u.
  destruct (User.id u =? k) eqn:E; [by rewrite Hid, E | by rewrite E].
Qed.

Lemma cascade_users (ks : list Z) (d : DB) :
  users (fold_left (fun acc k => delete_chat_session k acc) ks d) = users d.
Proof.
  revert d. induction ks as [|k ks IH]; simpl; intros d; [done|]. by rewrite IH.
Qed.

(** ** The constraints of the user table are kept *)

Lemma fold_max_ge (r : list Z) (i x : Z) :
  x = i \/ In x r -> x <= fold_left Z.max r i.
Proof.
  revert i x. induction r as [|y r IH]; simpl; intros i x H.
  - destruct H as [->|[]]. lia.
  - destruct H as [->|[->|H]].
    + apply (Z.le_trans _ (Z.max i y)); [lia|]. apply IH. by left.
    + apply (Z.le_trans _ (Z.max i x)); [lia|]. apply IH. by left.
    + apply IH. by right.
Qed.

(** The key of an inserted row is in use by no row. *)
Lemma next_rowid_fresh (ids : list Z) : ~ In (next_rowid ids) ids.
Proof.
  destruct ids as [|i r]; [by intros []|]. intros H.
  assert (Hle : next_rowid (i :: r) <= fold_left Z.max r i).
  { apply fold_max_ge. destruct H as [H|H]; [by left|by right]. }
  unfold next_rowid in Hle. lia.
Qed.

Lemma NoDup_map_filter {A B : Type} (f : A -> B) (p : A -> bool) (l : list A) :
  NoDup (List.map f l) -> NoDup (List.map f (List.filter p l)).
Proof.
  induction l as [|x l IH]; simpl; [done|].
  intros Hnd. apply NoDup_cons in Hnd as [Hx Hnd].
  destruct (p x); simpl; [|by apply IH].
  apply NoDup_cons. split; [|by apply IH].
  intros Hin. apply Hx. apply list_elem_of_In in Hin. apply list_elem_of_In.
  apply in_map_iff in Hin as (y & Hy & Hin). apply filter_In in Hin as [Hin _].
  apply in_map_iff. eauto.
Qed.

Lemma add_user_keys_unique (name email password : string) (is_admin : bool) (d : DB) :
  keys_unique d ->
  User_first_by_email (Some email) d = None ->
  keys_unique (add_user name email password is_admin d).
Proof.
  intros [Hid Hem] Hnone. unfold keys_unique, add_user. simpl.
  rewrite !List.map_app. simpl. split.
  - apply NoDup_app. split; [done|]. split; [|apply NoDup_singleton].
    intros x Hx [<-|[]]%list_elem_of_In. apply list_elem_of_In in Hx.
    by apply next_rowid_fresh in Hx.
  - apply NoDup_app. split; [done|]. split; [|apply NoDup_singleton].
    intros x Hx [<-|[]]%list_elem_of_In. apply list_elem_of_In in Hx.
    apply in_map_iff in Hx as (u & Hu & Hin).
    apply (find_none _ _ Hnone) in Hin. rewrite Hu, String.eqb_refl in Hin. done.
Qed.

Lemma update_user_keys_unique (k : Z) (f : User.t -> User.t) (d : DB) :
  (forall u, User.id (f u) = User.id u) ->
  (forall u, User.email (f u) = User.email u) ->
  keys_unique d -> keys_unique (update_user k f d).
Proof.
  intros Hid Hem [H1 H2]. unfold keys_unique, update_user. simpl.
  rewrite !List.map_map.
  rewrite (List.map_ext _ User.id), (List.map_ext _ User.email); [done| |].
  - intros u. by destruct (User.id u =? k).
  - intros u. by destruct (User.id u =? k).
Qed.

Lemma delete_user_row_keys_unique (uid : Z) (d : DB) :
  keys_unique d -> keys_unique (delete_user_row uid d).
Proof.
  intros [H1 H2]. unfold keys_unique, delete_user_row. simpl.
  rewrite cascade_users. split; by apply NoDup_map_filter.
Qed.

(** Every route that writes the user table keeps its keys and its emails
    unique. *)
Lemma signup_keys_unique (w : World) (name email password : option string) :
  keys_unique (db w) ->
  match signup name email password w with
  | Ok _ w' | Fault _ w' => keys_unique (db w')
  end.
Proof.
  intros Hk. unfold signup.
  destruct (negb (truthy name) || negb (truthy email) || negb (truthy password)) eqn:C;
    [done|].
  destruct email as [e|]; [|destruct (truthy name); discriminate C].
  run.
  destruct (List.find _ (users (db w))) as [x|] eqn:E; simpl; [done|].
  by apply add_user_keys_unique.
Qed.

Lemma bootstrap_keys_unique (w : World) :
  keys_unique (db w) ->
  match bootstrap w with
  | Ok _ w' | Fault _ w' => keys_unique (db w')
  end.
Proof.
  intros Hk. unfold bootstrap. run.
  destruct (List.find _ (users (db w))) as [x|] eqn:E; simpl; [done|].
  by apply add_user_keys_unique.
Qed.

Lemma block_user_keys_unique (w : World) (uid : Z) :
  keys_unique (db w) ->
  match block_user uid w with
  | Ok _ w' | Fault _ w' => keys_unique (db w')
  end.
Proof.
  intros Hk. unfold block_user. run.
  destruct (User_get uid (db w)) as [u|]; simpl; [|by destruct (int64 uid)].
  by apply update_user_keys_unique.
Qed.

Lemma delete_user_keys_unique (w : World) (uid : Z) :
  keys_unique (db w) ->
  match delete_user uid w with
  | Ok _ w' | Fault _ w' => keys_unique (db w')
  end.
Proof.
  intros Hk. unfold delete_user. run.
  destruct (User_get uid (db w)) as [u|]; simpl; [|by destruct (int64 uid)].
  apply delete_user_row_keys_unique. by apply update_user_keys_unique.
Qed.

(** ** The outcome of [block_user] *)

Lemma block_user_found (w : World) (uid : Z) (u : User.t) :
  User_get uid (db w) = Some u ->
  let flip := User.set_is_blocked (negb (User.is_blocked u)) in
  block_user uid w
  = Ok (redirect to_admin_dashboard)
       (flashed (blocked_message (flip u)) "success"
          (commit_db (with_db (update_user uid flip) w))).
Proof.
  intros H. unfold block_user. run. rewrite H. by run.
Qed.

Lemma block_user_missing (w : World) (uid : Z) :
  User_get uid (db w) = None ->
  block_user uid w
  = if int64 uid then Ok (redirect to_admin_dashboard) w else Fault OverflowError w.
Proof.
  intros H. unfold block_user. run. rewrite H. by destruct (int64 uid).
Qed.

(** C10: for an existing user id, [block_user] negates the [is_blocked]
    flag of that row and leaves its name, email, password, [is_banned] and
    [is_admin] as they are; the other users, the chat sessions and the chats
    are untouched, and a second call restores the tables. *)
Theorem block_user_toggles_blocked_only (w : World) (uid : Z) (u : User.t) :
  NoDup (List.map User.id (users (db w))) ->
  User_get uid (db w) = Some u ->
  exists w1 w2,
    block_user uid w = Ok (redirect to_admin_dashboard) w1
    /\ User_get uid (db w1)
       = Some (User.mk (User.id u) (User.name u) (User.email u) (User.password u)
                       (negb (User.is_blocked u)) (User.is_banned u) (User.is_admin u))
    /\ (forall k, k <> uid -> User_get k (db w1) = User_get k (db w))
    /\ chat_sessions (db w1) = chat_sessions (db w)
    /\ chats (db w1) = chats (db w)
    /\ block_user uid w1 = Ok (redirect to_admin_dashboard) w2
    /\ db w2 = db w.
Proof.
  intros Hnd Hget.
  set (flip := User.set_is_blocked (negb (User.is_blocked u))).
  assert (Hflip : forall b x, User.id (User.set_is_blocked b x) = User.id x) by done.
  assert (Hget1 : User_get uid (update_user uid flip (db w)) = Some (flip u)).
  { rewrite User_get_update_user by apply Hflip.
    rewrite Z.eqb_refl, Hget. done. }
  eexists _, _. split; [by apply block_user_found|].
  split; [exact Hget1|].
  split.
  { intros k Hk. simpl. rewrite User_get_update_user by apply Hflip.
    by assert ((k =? uid) = false) as -> by lia. }
  split; [done|]. split; [done|].
  split; [by apply block_user_found|].
  simpl. rewrite update_user_compose by apply Hflip.
  apply (update_user_same_flag uid _ (db w) u Hnd Hget).
  destruct u as [i n e p b bn ad]. simpl. by rewrite negb_involutive.
Qed.

Lemma block_user_toggles_blocked_only_witness :
  exists w1 w2,
    block_user 2 Sample.anonymous = Ok (redirect to_admin_dashboard) w1
    /\ User_get 2 (db w1) = Some (User.mk 2 "Alice" "a@x.com" "pw1" true false false)
    /\ (forall k, k <> 2 -> User_get k (db w1) = User_get k (db Sample.anonymous))
    /\ chat_sessions (db w1) = chat_sessions (db Sample.anonymous)
    /\ chats (db w1) = chats (db Sample.anonymous)
    /\ block_user 2 w1 = Ok (redirect to_admin_dashboard) w2
    /\ db w2 = db Sample.anonymous.
Proof.
  apply (block_user_toggles_blocked_only Sample.anonymous 2 Sample.alice).
  - apply (bool_decide_unpack _). vm_compute. reflexivity.
  - reflexivity.
Defined.

(** ** The administrator's routes *)

(** [admin_dashboard] lists the users only for a session whose ["user_id"]
    is the key of a row with [is_admin]; every other request is sent home
    with a flashed message. *)
Lemma admin_dashboard_guard (w : World) :
  admin_dashboard w
  = match session w !! "user_id" with
    | None => denied w
    | Some v =>
        match User_get_py v (db w) with
        | None => denied w
        | Some user =>
            if User.is_admin user
            then Ok (render_admin
                       (List.filter (fun u => negb (String.eqb (User.email u) admin_email))
                                    (users (db w)))) w
            else denied w
        end
    end.
Proof.
  unfold admin_dashboard, denied. run.
  destruct (session w !! "user_id") as [v|] eqn:E; simpl; rewrite ?E; [|done].
  destruct (User_get_py v (db w)) as [user|]; [|done].
  by destruct (User.is_admin user).
Qed.

(** [block_user] and [delete_user] never read the session. *)
Lemma block_user_ignores_session (w : World) (uid : Z) (s : gmap string pyval) :
  let w' := mkWorld (db w) (committed w) s (flashes w) (prompts w) (now w) (views w) in
  forall r w1, block_user uid w = Ok r w1 ->
  exists w1', block_user uid w' = Ok r w1' /\ db w1' = db w1 /\ committed w1' = committed w1.
Proof.
  intros w' r w1. unfold block_user. run.
  destruct (User_get uid (db w)) as [u|]; simpl;
    [|destruct (int64 uid); [|done]]; intros [= <- <-]; by eexists.
Qed.

Lemma delete_user_ignores_session (w : World) (uid : Z) (s : gmap string pyval) :
  let w' := mkWorld (db w) (committed w) s (flashes w) (prompts w) (now w) (views w) in
  forall r w1, delete_user uid w = Ok r w1 ->
  exists w1', delete_user uid w' = Ok r w1' /\ db w1' = db w1 /\ committed w1' = committed w1.
Proof.
  intros w' r w1. unfold delete_user. run.
  destruct (User_get uid (db w)) as [u|]; simpl;
    [|destruct (int64 uid); [|done]]; intros [= <- <-]; by eexists.
Qed.

(** C1: with nobody logged in, [GET /admin] is refused, but
    [GET /admin/block/2] blocks Alice and [GET /admin/delete/2] deletes her
    row and her chat session, and both commit. *)
Theorem admin_mutations_run_for_anonymous :
  session Sample.anonymous !! "user_id" = None
  /\ admin_dashboard Sample.anonymous = denied Sample.anonymous
  /\ (exists w1,
        block_user 2 Sample.anonymous = Ok (redirect to_admin_dashboard) w1
        /\ User.is_blocked <$> User_get 2 (db Sample.anonymous) = Some false
        /\ User.is_blocked <$> User_get 2 (db w1) = Some true
        /\ committed w1 = [db w1; Sample.tables])
  /\ (exists w1,
        delete_user 2 Sample.anonymous = Ok (redirect to_admin_dashboard) w1
        /\ db w1 = mkDB [Sample.admin; Sample.mallory] [Sample.greeting]
                        [Sample.hello; Sample.weather]
        /\ committed w1 = [db w1; Sample.tables]).
Proof.
  split; [done|]. split; [by vm_compute|].
  split; eexists; (split; [by vm_compute|]); by vm_compute.
Qed.

(** ** Signing in and up *)

Lemma find_unique_email (us : list User.t) (u : User.t) :
  NoDup (List.map User.email us) ->
  In u us ->
  List.find (fun x => String.eqb (User.email x) (User.email u)) us = Some u.
Proof.
  induction us as [|x l IH]; simpl; [done|].
  intros Hnd Hin. apply NoDup_cons in Hnd as [Hx Hnd].
  destruct (String.eqb (User.email x) (User.email u)) eqn:E.
  - destruct Hin as [->|Hin]; [done|].
    apply String.eqb_eq in E. exfalso. apply Hx. rewrite E.
    apply list_elem_of_In, in_map, Hin.
  - destruct Hin as [->|Hin]; [by rewrite String.eqb_refl in E|].
    by apply IH.
Qed.

(** C3: a row with [is_banned] never signs in, whatever the password and
    whatever its [is_blocked] flag: the answer is the redirect home with the
    message for banned accounts, which comes before the check of
    [is_blocked], and the session is left as it was. *)
Theorem signin_banned_rejected (w : World) (u : User.t) (password : option string) :
  NoDup (List.map User.email (users (db w))) ->
  In u (users (db w)) ->
  User.is_banned u = true ->
  signin (Some (User.email u)) password w
  = Ok (redirect to_home) (flashed "This email is banned. Contact admin." "error" w).
Proof.
  intros Hnd Hin Hban. unfold signin. run.
  rewrite (find_unique_email _ _ Hnd Hin). by rewrite Hban.
Qed.

Lemma signin_banned_rejected_witness :
  signin (Some "m@x.com") (Some "pw3") Sample.anonymous
  = Ok (redirect to_home)
       (flashed "This email is banned. Contact admin." "error" Sample.anonymous).
Proof.
  apply (signin_banned_rejected Sample.anonymous Sample.mallory (Some "pw3")).
  - apply (bool_decide_unpack _). vm_compute. reflexivity.
  - simpl. tauto.
  - reflexivity.
Defined.

(** C8: a signup whose email is the email of a stored row is answered by a
    redirect and one flashed error message, and nothing else changes: no row
    is added and nothing is committed. *)
Theorem signup_existing_email_rejected
    (w : World) (name password : option string) (u : User.t) :
  In u (users (db w)) ->
  exists target message,
    signup name (Some (User.email u)) password w
    = Ok (redirect target) (flashed message "error" w).
Proof.
  intros Hin. unfold signup.
  destruct (negb (truthy name) || negb (truthy (Some (User.email u)))
            || negb (truthy password)).
  - by eexists _, _.
  - run.
    destruct (List.find _ (users (db w))) as [x|] eqn:E.
    + by eexists _, _.
    + exfalso. apply (find_none _ _ E) in Hin.
      by rewrite String.eqb_refl in Hin.
Qed.

Lemma signup_existing_email_rejected_witness :
  exists target message,
    signup (Some "Eve") (Some "a@x.com") (Some "pw9") Sample.anonymous
    = Ok (redirect target) (flashed message "error" Sample.anonymous).
Proof.
  apply (signup_existing_email_rejected Sample.anonymous (Some "Eve") (Some "pw9")
                                        Sample.alice).
  simpl. tauto.
Defined.

(** ** Deleting a chat session *)

Lemma delete_chat_anonymous (w : World) (sid : Z) :
  session w !! "user" = None ->
  delete_chat sid w = Ok (json_status "error" (Some "Unauthorized") 403) w.
Proof.
  intros H. unfold delete_chat. run. by rewrite H.
Qed.

(** C2, as the code has it: for a logged-in user, a session of another
    user gives 404 and changes nothing, and so does a session id that no
    row has and that SQLite can bind; for an id outside the signed 64-bit
    range the lookup raises [OverflowError]. The session and its chats are
    deleted, with status 200, exactly when the session exists and its
    [user_id] is the one in the Flask session. *)
Theorem delete_chat_logged_in (w : World) (sid uid : Z) (display_name : pyval) :
  session w !! "user" = Some display_name ->
  session w !! "user_id" = Some (PyInt uid) ->
  delete_chat sid w
  = match ChatSession_get sid (db w) with
    | Some cs =>
        if ChatSession.user_id cs =? uid
        then Ok (json_status "success" None 200)
                (commit_db (with_db (delete_chat_session sid) w))
        else chat_not_found w
    | None => if int64 sid then chat_not_found w else Fault OverflowError w
    end.
Proof.
  intros Huser Huid. unfold delete_chat, chat_not_found. run. rewrite Huser. simpl.
  destruct (ChatSession_get sid (db w)) as [cs|]; simpl;
    [|by destruct (int64 sid)].
  rewrite Huid. simpl.
  destruct (ChatSession.user_id cs =? uid) eqn:E.
  - apply Z.eqb_eq in E as ->. by rewrite bool_decide_eq_true_2.
  - rewrite bool_decide_eq_false_2; [done|]. intros [= ?]. lia.
Qed.

Lemma delete_chat_logged_in_witness :
  delete_chat 2 Sample.as_alice = chat_not_found Sample.as_alice.
Proof.
  apply (delete_chat_logged_in Sample.as_alice 2 2 (PyStr "Alice")); reflexivity.
Defined.

(** C2, as stated, fails: Alice is logged in and session 2 exists and
    belongs to user 3, yet the status is 404 and not 403. *)
Lemma delete_chat_foreign_session_is_404 :
  session Sample.as_alice !! "user" = Some (PyStr "Alice")
  /\ session Sample.as_alice !! "user_id" = Some (PyInt 2)
  /\ ChatSession_get 2 (db Sample.as_alice) = Some Sample.greeting
  /\ ChatSession.user_id Sample.greeting = 3
  /\ delete_chat 2 Sample.as_alice
     = Ok (json_status "error" (Some "Chat not found") 404) Sample.as_alice
  /\ ~ (exists status msg w',
          delete_chat 2 Sample.as_alice = Ok (json_status status msg 403) w').
Proof.
  assert (H : delete_chat 2 Sample.as_alice
              = Ok (json_status "error" (Some "Chat not found") 404) Sample.as_alice)
    by (by vm_compute).
  repeat split; try done.
  intros (status & msg & w' & H'). rewrite H in H'. discriminate H'.
Qed.

(** ** Deleting a user *)

Lemma delete_chat_session_users (k : Z) (d : DB) :
  users (delete_chat_session k d) = users d.
Proof. done. Qed.

Lemma cascade_sessions_subset (ks : list Z) (d : DB) (s : ChatSession.t) :
  In s (chat_sessions (fold_left (fun acc k => delete_chat_session k acc) ks d)) ->
  In s (chat_sessions d) /\ ~ In (ChatSession.id s) ks.
Proof.
  revert d. induction ks as [|k ks IH]; simpl; intros d H; [tauto|].
  apply IH in H as [H Hks]. simpl in H. apply filter_In in H as [H Hk].
  split; [done|]. intros [->|?]; [|done].
  by rewrite Z.eqb_refl in Hk.
Qed.

Lemma cascade_chats_subset (ks : list Z) (d : DB) (c : Chat.t) :
  In c (chats (fold_left (fun acc k => delete_chat_session k acc) ks d)) ->
  In c (chats d) /\ ~ In (Chat.session_id c) ks.
Proof.
  revert d. induction ks as [|k ks IH]; simpl; intros d H; [tauto|].
  apply IH in H as [H Hks]. simpl in H. apply filter_In in H as [H Hk].
  split; [done|]. intros [->|?]; [|done].
  by rewrite Z.eqb_refl in Hk.
Qed.

Lemma owned_session_ids_spec (uid : Z) (d : DB) (s : ChatSession.t) :
  In s (chat_sessions d) -> ChatSession.user_id s = uid ->
  In (ChatSession.id s) (owned_session_ids uid d).
Proof.
  intros Hin Huid. unfold owned_session_ids. apply in_map, filter_In.
  split; [done|]. lia.
Qed.

(** C7: [delete_user] on an existing user makes two changes through the
    unit of work and then one commit. The first change sets [is_banned] on
    the row of that key and alters nothing else; the second deletes the row
    from that view; the commit writes the result, which has no row of that
    key, none of the user's chat sessions and none of the chats of those
    sessions. *)
Theorem delete_user_cascades (w : World) (uid : Z) (u : User.t) :
  User_get uid (db w) = Some u ->
  exists w' banned,
    delete_user uid w = Ok (redirect to_admin_dashboard) w'
    /\ views w' = db w' :: banned :: views w
    /\ User_get uid banned = Some (User.set_is_banned true u)
    /\ User.is_banned <$> User_get uid banned = Some true
    /\ (forall k, k <> uid -> User_get k banned = User_get k (db w))
    /\ chat_sessions banned = chat_sessions (db w)
    /\ chats banned = chats (db w)
    /\ db w' = delete_user_row uid banned
    /\ committed w' = db w' :: committed w
    /\ User_get uid (db w') = None
    /\ (forall s, In s (chat_sessions (db w)) -> ChatSession.user_id s = uid ->
                  ~ In s (chat_sessions (db w')))
    /\ (forall s c, In s (chat_sessions (db w)) -> ChatSession.user_id s = uid ->
                    In c (chats (db w)) -> Chat.session_id c = ChatSession.id s ->
                    ~ In c (chats (db w'))).
Proof.
  intros Hget. eexists _, _. split.
  { unfold delete_user. run. rewrite Hget. by run. }
  simpl. split; [done|].
  assert (Hb : User_get uid (update_user uid (User.set_is_banned true) (db w))
               = Some (User.set_is_banned true u)).
  { rewrite User_get_update_user by done. by rewrite Z.eqb_refl, Hget. }
  split; [exact Hb|]. split; [by rewrite Hb|].
  split.
  { intros k Hk. rewrite User_get_update_user by done.
    by assert ((k =? uid) = false) as -> by lia. }
  split; [done|]. split; [done|]. split; [done|]. split; [done|].
  split.
  { unfold User_get, delete_user_row. simpl.
    destruct (List.find _ _) as [x|] eqn:E; [|done].
    apply find_some in E as [E1 E2]. apply filter_In in E1 as [_ E1]. lia. }
  split.
  - intros s Hin Huid Hin'. unfold delete_user_row in Hin'. simpl in Hin'.
    apply cascade_sessions_subset in Hin' as [_ Hn]. apply Hn.
    by apply owned_session_ids_spec.
  - intros s c Hs Huid Hc Hsid Hin'. unfold delete_user_row in Hin'. simpl in Hin'.
    apply cascade_chats_subset in Hin' as [_ Hn]. apply Hn. rewrite Hsid.
    by apply owned_session_ids_spec.
Qed.

Lemma delete_user_cascades_witness :
  exists w' banned,
    delete_user 2 Desk.as_admin = Ok (redirect to_admin_dashboard) w'
    /\ views w' = db w' :: banned :: views Desk.as_admin
    /\ User_get 2 banned = Some (User.set_is_banned true Desk.alice)
    /\ User.is_banned <$> User_get 2 banned = Some true
    /\ (forall k, k <> 2 -> User_get k banned = User_get k (db Desk.as_admin))
    /\ chat_sessions banned = chat_sessions (db Desk.as_admin)
    /\ chats banned = chats (db Desk.as_admin)
    /\ db w' = delete_user_row 2 banned
    /\ committed w' = db w' :: committed Desk.as_admin
    /\ User_get 2 (db w') = None
    /\ (forall s, In s (chat_sessions (db Desk.as_admin)) ->
                  ChatSession.user_id s = 2 -> ~ In s (chat_sessions (db w')))
    /\ (forall s c, In s (chat_sessions (db Desk.as_admin)) ->
                    ChatSession.user_id s = 2 ->
                    In c (chats (db Desk.as_admin)) ->
                    Chat.session_id c = ChatSession.id s ->
                    ~ In c (chats (db w'))).
Proof.
  apply (delete_user_cascades Desk.as_admin 2 Desk.alice). reflexivity.
Defined.

(** On the second sample the purge of Alice goes through the view in which
    she is banned and leaves Bob's session and chat. *)
Example delete_user_views :
  views (final (delete_user 2 Desk.as_admin))
  = [mkDB [Desk.admin; Desk.bob] [Desk.bobs] [Desk.hey];
     mkDB [Desk.admin; User.set_is_banned true Desk.alice; Desk.bob]
          [Desk.travel; Desk.bobs; Desk.empty] [Desk.hello; Desk.weather; Desk.hey]].
Proof. by vm_compute. Qed.

(** On the sample tables the purge of user 3 leaves the two other users,
    the session of user 2 and no chat. *)
Example delete_user_sample :
  db <$> (match delete_user 3 Sample.anonymous with Ok _ w' => Some w' | Fault _ _ => None end)
  = Some (mkDB [Sample.admin; Sample.alice] [Sample.fresh] []).
Proof. by vm_compute. Qed.

(** ** Ordering by timestamp *)

Section OrderBy.

Context {A : Type} (key : A -> Z).

Local Abbreviation key_le := (key_le key).

Lemma insert_by_Permutation (x : A) (l : list A) :
  Permutation (insert_by key x l) (x :: l).
Proof.
  induction l as [|y l IH]; simpl; [done|].
  destruct (key x <? key y); [done|].
  rewrite IH. apply perm_swap.
Qed.

Lemma insert_by_sorted (x : A) (l : list A) :
  StronglySorted key_le l -> StronglySorted key_le (insert_by key x l).
Proof.
  induction 1 as [|y l Hs IH Hy]; simpl.
  - repeat constructor.
  - destruct (key x <? key y) eqn:E.
    + constructor; [by constructor|].
      constructor; [unfold key_le; lia|].
      eapply Forall_impl; [exact Hy|]. unfold key_le. intros z Hz. simpl in *. lia.
    + constructor; [done|].
      rewrite insert_by_Permutation. constructor; [unfold key_le; lia|done].
Qed.

Lemma fold_insert_by (l acc : list A) :
  StronglySorted key_le acc ->
  StronglySorted key_le (fold_left (fun acc x => insert_by key x acc) l acc)
  /\ Permutation (fold_left (fun acc x => insert_by key x acc) l acc) (acc ++ l).
Proof.
  revert acc. induction l as [|x l IH]; simpl; intros acc Hacc.
  - by rewrite app_nil_r.
  - destruct (IH (insert_by key x acc)) as [Hs Hp]; [by apply insert_by_sorted|].
    split; [done|]. rewrite Hp, insert_by_Permutation.
    simpl. apply Permutation_middle.
Qed.

Lemma order_by_asc_sorted (l : list A) : StronglySorted key_le (order_by_asc key l).
Proof. apply fold_insert_by. constructor. Qed.

Lemma order_by_asc_Permutation (l : list A) : Permutation (order_by_asc key l) l.
Proof. apply (fold_insert_by l []). constructor. Qed.

End OrderBy.

(** [Chat_history] holds the chats of the session, each as often as the
    table does and no other, the older before the newer. *)
Lemma Chat_history_sorted (sid : Z) (d : DB) :
  StronglySorted (key_le Chat.timestamp) (Chat_history sid d).
Proof. apply order_by_asc_sorted. Qed.

Lemma Chat_history_Permutation (sid : Z) (d : DB) :
  Permutation (Chat_history sid d)
              (List.filter (fun c => Chat.session_id c =? sid) (chats d)).
Proof. apply order_by_asc_Permutation. Qed.

(** ** The prompt *)

Lemma string_app_assoc (a b c : string) : (a +:+ b) +:+ c = a +:+ (b +:+ c).
Proof.
  induction a as [|x a IH]; [done|].
  change (String x ((a +:+ b) +:+ c) = String x (a +:+ (b +:+ c))). by rewrite IH.
Qed.

Lemma build_prompt_loop (previous_chats : list Chat.t) (acc tail : string) :
  fold_left
    (fun prompt chat =>
       prompt +:+ ("User: " +:+ Chat.question chat +:+ nl
                   +:+ "Bot: " +:+ Chat.answer chat +:+ nl))
    previous_chats acc +:+ tail
  = acc +:+ foldr (fun chat rest => turn_text chat +:+ rest) tail previous_chats.
Proof.
  revert acc. induction previous_chats as [|c l IH]; simpl; intros acc; [done|].
  rewrite IH. unfold turn_text. by rewrite !string_app_assoc.
Qed.

(** The loop of the handlers builds the transcript of the specification. *)
Lemma build_prompt_transcript (previous_chats : list Chat.t) (m : string) :
  build_prompt previous_chats (Some m) = transcript previous_chats m.
Proof.
  unfold build_prompt, transcript. rewrite build_prompt_loop. simpl.
  by rewrite !string_app_assoc.
Qed.

(** ** The summary step *)

Lemma summary_step_prompts (cs : ChatSession.t) (m : string) (w : World) :
  prompts (summary_step cs m w) = prompts w.
Proof. unfold summary_step. by destruct (String.eqb _ _). Qed.

Lemma summary_step_committed (cs : ChatSession.t) (m : string) (w : World) :
  committed (summary_step cs m w) = committed w.
Proof. unfold summary_step. by destruct (String.eqb _ _). Qed.

Lemma summary_step_now (cs : ChatSession.t) (m : string) (w : World) :
  now (summary_step cs m w) = now w.
Proof. unfold summary_step. by destruct (String.eqb _ _). Qed.

Lemma summary_step_db (cs : ChatSession.t) (m : string) (w : World) :
  db (summary_step cs m w) = summarised cs m (db w).
Proof. unfold summary_step, summarised. by destruct (String.eqb _ _). Qed.

Lemma summarised_chats (cs : ChatSession.t) (m : string) (d : DB) :
  chats (summarised cs m d) = chats d.
Proof. unfold summarised. by destruct (String.eqb _ _). Qed.

(** ** The outcome of a chat turn *)

Section ChatRoutes.

Variable generate_content : list string -> string -> string + string.

Lemma query_gemini_api_reply (prompt : string) (w : World) :
  query_gemini_api generate_content prompt w
  = Ok (reply_text (generate_content (prompts w) prompt)) (sent prompt w).
Proof.
  unfold query_gemini_api, reply_text. by destruct (generate_content _ _).
Qed.

Lemma chatbot_api_turn (w : World) (m : string) (sid : Z) (cs : ChatSession.t)
    (display_name : pyval) :
  session w !! "user" = Some display_name ->
  ChatSession_get sid (db w) = Some cs ->
  let prompt := build_prompt (Chat_history (ChatSession.id cs) (db w)) (Some m) in
  let reply := reply_text (generate_content (prompts w) prompt) in
  chatbot_api generate_content (Some m) (Some sid) w
  = Ok (jsonify_reply reply)
       (commit_db (with_db (add_chat (ChatSession.id cs) m reply (now w))
                           (sent prompt w))).
Proof.
  intros Huser Hget. unfold chatbot_api. run. rewrite Huser. simpl.
  rewrite Hget. simpl. rewrite query_gemini_api_reply. by run.
Qed.

Lemma chatbot_post_turn (w : World) (m : string) (cs : ChatSession.t) :
  let prompt := build_prompt (Chat_history (ChatSession.id cs) (db w)) (Some m) in
  let reply := reply_text (generate_content (prompts w) prompt) in
  chatbot_post generate_content (Some cs) (Some m) w
  = Ok tt
       (commit_db (with_db (add_chat (ChatSession.id cs) m reply (now w))
                           (summary_step cs m (sent prompt w)))).
Proof.
  unfold chatbot_post. run. rewrite query_gemini_api_reply. run.
  unfold summary_step. by destruct (String.eqb (ChatSession.summary cs) "New Chat").
Qed.

Lemma chatbot_existing_post (w : World) (m s : string) (k : Z) (cs : ChatSession.t)
    (uid display_name : pyval) (u : User.t) :
  session w !! "user" = Some display_name ->
  session w !! "user_id" = Some uid ->
  User_get_py uid (db w) = Some u ->
  truthy (Some s) = true ->
  PyInt.int s = Some k ->
  ChatSession_get k (db w) = Some cs ->
  let prompt := build_prompt (Chat_history (ChatSession.id cs) (db w)) (Some m) in
  let reply := reply_text (generate_content (prompts w) prompt) in
  let w' := commit_db (with_db (add_chat (ChatSession.id cs) m reply (now w))
                               (summary_step cs m (sent prompt w))) in
  chatbot generate_content POST (Some s) (Some m) w
  = Ok (render_chatbot
          (List.map (sidebar_entry (db w)) (sessions_with_msgs (User.id u) (db w)))
          (ChatSession.id cs) (Chat_history (ChatSession.id cs) (db w')) display_name)
       w'.
Proof.
  intros Huser Huid Hu Hs Hk Hget.
  destruct s as [|c s']; [discriminate Hs|].
  unfold chatbot. run. rewrite Huser. simpl. rewrite Huid. simpl.
  rewrite Hu. simpl. rewrite Hk. simpl. rewrite Hget.
  rewrite chatbot_post_turn. unfold summary_step.
  destruct (String.eqb (ChatSession.summary cs) "New Chat"); simpl; by rewrite Huser.
Qed.

(** A POST without [session_id] talks to the session it has just
    created. *)
Lemma chatbot_new_post (w : World) (m : string) (session_id : option string)
    (uid display_name : pyval) (u : User.t) :
  session w !! "user" = Some display_name ->
  session w !! "user_id" = Some uid ->
  User_get_py uid (db w) = Some u ->
  truthy session_id = false ->
  let cs := ChatSession.mk (next_rowid (List.map ChatSession.id (chat_sessions (db w))))
                           (User.id u) "New Chat" (now w) in
  let prompt := build_prompt (Chat_history (ChatSession.id cs) (db w)) (Some m) in
  let reply := reply_text (generate_content (prompts w) prompt) in
  let w1 := commit_db (with_db (add_chat_session (User.id u) (now w)) w) in
  let w' := commit_db (with_db (add_chat (ChatSession.id cs) m reply (now w))
                               (summary_step cs m (sent prompt w1))) in
  chatbot generate_content POST session_id (Some m) w
  = Ok (render_chatbot
          (List.map (sidebar_entry (db w)) (sessions_with_msgs (User.id u) (db w)))
          (ChatSession.id cs) (Chat_history (ChatSession.id cs) (db w')) display_name)
       w'.
Proof.
  intros Huser Huid Hu Hs.
  unfold chatbot. run. rewrite Huser. simpl. rewrite Huid. simpl.
  rewrite Hu. simpl. rewrite Hs. simpl. rewrite last_snoc.
  rewrite chatbot_post_turn. unfold summary_step. simpl. by rewrite Huser.
Qed.



(** The JSON route writes no [ChatSession] row, whatever happens. *)
Lemma chatbot_api_keeps_sessions (w : World) (message : option string)
    (session_id : option Z) :
  match chatbot_api generate_content message session_id w with
  | Ok _ w' | Fault _ w' => chat_sessions (db w') = chat_sessions (db w)
  end.
Proof.
  unfold chatbot_api. run.
  destruct (bool_decide (is_Some (session w !! "user"))); simpl; [|done].
  destruct session_id as [k|]; simpl; [|done].
  destruct (ChatSession_get k (db w)) as [cs|]; simpl; [|by destruct (int64 k)].
  rewrite query_gemini_api_reply. unfold add_chat_and_commit.
  by destruct message.
Qed.

End ChatRoutes.

(** ** The chat routes and the claims about them *)

(** C5: in a chat turn the prompt handed to the gateway is the transcript
    of the turns of the session, all of them and no other, the older before
    the newer, each as a [User:] line and a [Bot:] line, then the new
    message and the closing [Bot:]; this holds for the JSON route, for the
    page route on an existing session and for the page route on the session
    it creates when no [session_id] is given. *)
Theorem prompt_replays_session_oldest_first
    (generate_content : list string -> string -> string + string)
    (w : World) (m s : string) (k : Z) (cs : ChatSession.t)
    (uid display_name : pyval) (u : User.t) :
  session w !! "user" = Some display_name ->
  session w !! "user_id" = Some uid ->
  User_get_py uid (db w) = Some u ->
  truthy (Some s) = true ->
  PyInt.int s = Some k ->
  ChatSession_get k (db w) = Some cs ->
  (exists turns,
      Permutation turns (List.filter (fun c => Chat.session_id c =? k) (chats (db w)))
      /\ StronglySorted (key_le Chat.timestamp) turns
      /\ (exists r w', chatbot_api generate_content (Some m) (Some k) w = Ok r w'
                       /\ prompts w' = (prompts w ++ [transcript turns m])%list)
      /\ (exists r w', chatbot generate_content POST (Some s) (Some m) w = Ok r w'
                       /\ prompts w' = (prompts w ++ [transcript turns m])%list))
  /\ (forall absent, truthy absent = false ->
      exists turns,
        Permutation turns
          (List.filter
             (fun c => Chat.session_id c
                       =? next_rowid (List.map ChatSession.id (chat_sessions (db w))))
             (chats (db w)))
        /\ StronglySorted (key_le Chat.timestamp) turns
        /\ exists r w', chatbot generate_content POST absent (Some m) w = Ok r w'
                        /\ prompts w' = (prompts w ++ [transcript turns m])%list).
Proof.
  intros Huser Huid Hu Hs Hk Hget. split.
  - exists (Chat_history k (db w)).
    split; [apply Chat_history_Permutation|].
    split; [apply Chat_history_sorted|].
    pose proof (ChatSession_get_id _ _ _ Hget) as Hid.
    split; eexists _, _.
    + rewrite (chatbot_api_turn _ w m k cs display_name Huser Hget).
      split; [done|]. simpl. by rewrite build_prompt_transcript, Hid.
    + rewrite (chatbot_existing_post _ w m s k cs uid display_name u) by done.
      split; [done|]. simpl. rewrite summary_step_prompts. simpl.
      by rewrite build_prompt_transcript, Hid.
  - intros absent Habsent. eexists.
    split; [apply Chat_history_Permutation|].
    split; [apply Chat_history_sorted|].
    eexists _, _.
    rewrite (chatbot_new_post _ w m absent uid display_name u) by done.
    split; [done|]. simpl. by rewrite build_prompt_transcript.
Qed.

Lemma prompt_replays_session_oldest_first_witness :
  (exists turns,
      Permutation turns
        (List.filter (fun c => Chat.session_id c =? 2) (chats (db Sample.as_alice)))
      /\ StronglySorted (key_le Chat.timestamp) turns
      /\ (exists r w', chatbot_api Sample.parrot (Some "And tomorrow?") (Some 2) Sample.as_alice
                       = Ok r w'
                       /\ prompts w'
                          = (prompts Sample.as_alice ++ [transcript turns "And tomorrow?"])%list)
      /\ (exists r w', chatbot Sample.parrot POST (Some "2") (Some "And tomorrow?")
                               Sample.as_alice = Ok r w'
                       /\ prompts w'
                          = (prompts Sample.as_alice ++ [transcript turns "And tomorrow?"])%list))
  /\ (forall absent, truthy absent = false ->
      exists turns,
        Permutation turns
          (List.filter
             (fun c => Chat.session_id c
                       =? next_rowid (List.map ChatSession.id
                                               (chat_sessions (db Sample.as_alice))))
             (chats (db Sample.as_alice)))
        /\ StronglySorted (key_le Chat.timestamp) turns
        /\ exists r w', chatbot Sample.parrot POST absent (Some "And tomorrow?")
                                Sample.as_alice = Ok r w'
                        /\ prompts w'
                           = (prompts Sample.as_alice ++ [transcript turns "And tomorrow?"])%list).
Proof.
  apply (prompt_replays_session_oldest_first Sample.parrot Sample.as_alice
           "And tomorrow?" "2" 2 Sample.greeting (PyInt 2) (PyStr "Alice") Sample.alice);
    reflexivity.
Defined.

(** The third scenario of the specification: after "Hi", the prompt for
    "How are you" holds the first pair and then the new message. *)
Example second_prompt_holds_first_turn :
  match chatbot Sample.parrot POST (Some "1") (Some "Hi") Sample.as_alice with
  | Ok _ w1 =>
      match chatbot Sample.parrot POST (Some "1") (Some "How are you") w1 with
      | Ok _ w2 => prompts w2
      | Fault _ _ => []
      end
  | Fault _ _ => []
  end
  = ["User: Hi" +:+ nl +:+ "Bot:";
     "User: Hi" +:+ nl +:+ "Bot: Sure." +:+ nl +:+ "User: How are you" +:+ nl +:+ "Bot:"].
Proof. by vm_compute. Qed.

(** C6: the gateway returns the text of the response, or [Error: ]
    followed by the message of the exception; when the call fails in a chat
    turn, the client is called once, and both routes store the error string
    as the [answer] of the new [Chat] row and commit, as they do for a model
    that answers with that very string. *)
Theorem gateway_error_stored_as_answer
    (generate_content : list string -> string -> string + string)
    (w : World) (m s e : string) (k : Z) (cs : ChatSession.t)
    (uid display_name : pyval) (u : User.t) :
  session w !! "user" = Some display_name ->
  session w !! "user_id" = Some uid ->
  User_get_py uid (db w) = Some u ->
  truthy (Some s) = true ->
  PyInt.int s = Some k ->
  ChatSession_get k (db w) = Some cs ->
  generate_content (prompts w) (build_prompt (Chat_history k (db w)) (Some m)) = inr e ->
  let prompt := build_prompt (Chat_history k (db w)) (Some m) in
  let row := Chat.mk (next_rowid (List.map Chat.id (chats (db w)))) k m
                     ("Error: " +:+ e) (now w) in
  (forall p, exists reply,
      query_gemini_api generate_content p w = Ok reply (sent p w)
      /\ match generate_content (prompts w) p with
         | inl text => reply = text
         | inr e' => reply = "Error: " +:+ e'
         end)
  /\ (exists w',
        chatbot_api generate_content (Some m) (Some k) w
        = Ok (jsonify_reply ("Error: " +:+ e)) w'
        /\ chats (db w') = (chats (db w) ++ [row])%list
        /\ committed w' = db w' :: committed w
        /\ prompts w' = (prompts w ++ [prompt])%list)
  /\ (exists r w',
        chatbot generate_content POST (Some s) (Some m) w = Ok r w'
        /\ chats (db w') = (chats (db w) ++ [row])%list
        /\ committed w' = db w' :: committed w
        /\ prompts w' = (prompts w ++ [prompt])%list)
  /\ (forall model : list string -> string -> string + string,
        model (prompts w) prompt = inl ("Error: " +:+ e) ->
        chatbot_api model (Some m) (Some k) w
        = chatbot_api generate_content (Some m) (Some k) w
        /\ chatbot model POST (Some s) (Some m) w
           = chatbot generate_content POST (Some s) (Some m) w).
Proof.
  intros Huser Huid Hu Hs Hk Hget He prompt row. subst prompt row.
  pose proof (ChatSession_get_id _ _ _ Hget) as Hid.
  split.
  { intros p. eexists. split; [apply query_gemini_api_reply|].
    by destruct (generate_content (prompts w) p). }
  split.
  { eexists. rewrite (chatbot_api_turn _ w m k cs display_name Huser Hget).
    rewrite Hid, He. simpl. done. }
  split.
  { eexists _, _.
    rewrite (chatbot_existing_post _ w m s k cs uid display_name u) by done.
    rewrite Hid, He. simpl.
    split; [done|]. unfold summary_step.
    by destruct (String.eqb (ChatSession.summary cs) "New Chat"). }
  intros model Hmodel. split.
  - rewrite !(chatbot_api_turn _ w m k cs display_name Huser Hget).
    by rewrite Hid, He, Hmodel.
  - rewrite !(chatbot_existing_post _ w m s k cs uid display_name u) by done.
    by rewrite Hid, He, Hmodel.
Qed.

Lemma gateway_error_stored_as_answer_witness :
  let w := Sample.as_alice in
  let prompt := build_prompt (Chat_history 2 (db w)) (Some "And tomorrow?") in
  let row := Chat.mk (next_rowid (List.map Chat.id (chats (db w)))) 2 "And tomorrow?"
                     ("Error: " +:+ "503 UNAVAILABLE") (now w) in
  (forall p, exists reply,
      query_gemini_api Sample.down p w = Ok reply (sent p w)
      /\ match Sample.down (prompts w) p with
         | inl text => reply = text
         | inr e' => reply = "Error: " +:+ e'
         end)
  /\ (exists w',
        chatbot_api Sample.down (Some "And tomorrow?") (Some 2) w
        = Ok (jsonify_reply ("Error: " +:+ "503 UNAVAILABLE")) w'
        /\ chats (db w') = (chats (db w) ++ [row])%list
        /\ committed w' = db w' :: committed w
        /\ prompts w' = (prompts w ++ [prompt])%list)
  /\ (exists r w',
        chatbot Sample.down POST (Some "2") (Some "And tomorrow?") w = Ok r w'
        /\ chats (db w') = (chats (db w) ++ [row])%list
        /\ committed w' = db w' :: committed w
        /\ prompts w' = (prompts w ++ [prompt])%list)
  /\ (forall model : list string -> string -> string + string,
        model (prompts w) prompt = inl ("Error: " +:+ "503 UNAVAILABLE") ->
        chatbot_api model (Some "And tomorrow?") (Some 2) w
        = chatbot_api Sample.down (Some "And tomorrow?") (Some 2) w
        /\ chatbot model POST (Some "2") (Some "And tomorrow?") w
           = chatbot Sample.down POST (Some "2") (Some "And tomorrow?") w).
Proof.
  apply (gateway_error_stored_as_answer Sample.down Sample.as_alice
           "And tomorrow?" "2" "503 UNAVAILABLE" 2 Sample.greeting
           (PyInt 2) (PyStr "Alice") Sample.alice);
    reflexivity.
Defined.




(** ** The summary of a chat session *)

Lemma slice_to_length (n : nat) (s : string) :
  (py_len (slice_to n s) <= n)%nat.
Proof.
  revert n. induction s as [|b r IH]; intros n; simpl; [lia|].
  destruct (is_continuation b) eqn:E; simpl; rewrite ?E; [apply IH|].
  destruct n as [|n]; simpl; rewrite ?E; [lia|]. specialize (IH n). lia.
Qed.

Lemma slice_to_short (n : nat) (s : string) :
  (py_len s <= n)%nat -> slice_to n s = s.
Proof.
  revert n. induction s as [|b r IH]; intros n; simpl; [done|].
  destruct (is_continuation b) eqn:E; intros H; [by rewrite IH|].
  destruct n as [|n]; [lia|]. rewrite IH; [done|lia].
Qed.

(** The page route writes a summary only over the default ["New Chat"]. *)
Lemma summarised_once (cs : ChatSession.t) (m : string) (d : DB) :
  ChatSession.summary cs <> "New Chat" -> summarised cs m d = d.
Proof.
  intros H. unfold summarised.
  destruct (String.eqb (ChatSession.summary cs) "New Chat") eqn:E; [|done].
  by apply String.eqb_eq in E.
Qed.

(** C4: session 1 is new, with the default summary and no chat. A first
    turn "Hi" through the JSON route stores the chat and leaves the summary
    at ["New Chat"]; the next turn, through the page route, then sets the
    summary from the second message. *)
Theorem chatbot_api_leaves_summary_unset :
  exists w1 r w2,
    ChatSession.summary <$> ChatSession_get 1 (db Sample.as_alice) = Some "New Chat"
    /\ Chat_history 1 (db Sample.as_alice) = []
    /\ chatbot_api Sample.parrot (Some "Hi") (Some 1) Sample.as_alice
       = Ok (jsonify_reply "Sure.") w1
    /\ Chat.question <$> Chat_history 1 (db w1) = ["Hi"]
    /\ ChatSession.summary <$> ChatSession_get 1 (db w1) = Some "New Chat"
    /\ chatbot Sample.parrot POST (Some "1") (Some "How are you") w1 = Ok r w2
    /\ ChatSession.summary <$> ChatSession_get 1 (db w2) = Some "How are you".
Proof.
  eexists _, _, _.
  split; [by vm_compute|]. split; [by vm_compute|].
  split; [by vm_compute|]. split; [by vm_compute|].
  split; [by vm_compute|]. split; by vm_compute.
Qed.

(** On the page route alone the first message does become the summary. *)
Example chatbot_sets_summary :
  match chatbot Sample.parrot POST (Some "1") (Some "Hi") Sample.as_alice with
  | Ok _ w1 => ChatSession.summary <$> ChatSession_get 1 (db w1)
  | Fault _ _ => None
  end = Some "Hi".
Proof. by vm_compute. Qed.

(** ** The scenarios of the specification *)

Example scenario_signup_signin :
  match signup (Some "Alice") (Some "a@x.com") (Some "pw1")
               (mkWorld (mkDB [] [] []) [] ∅ [] [] 0 []) with
  | Ok _ w1 =>
      match signin (Some "a@x.com") (Some "pw1") w1 with
      | Ok r w2 => Some (r, session w2 !! "user_id")
      | Fault _ _ => None
      end
  | Fault _ _ => None
  end = Some (redirect to_chatbot, Some (PyInt 1)).
Proof. by vm_compute. Qed.

Example scenario_admin_signin :
  match bootstrap (mkWorld (mkDB [] [] []) [] ∅ [] [] 0 []) with
  | Ok _ w1 =>
      match signin (Some "admin@barplexity.com") (Some "12345678") w1 with
      | Ok r _ => Some r
      | Fault _ _ => None
      end
  | Fault _ _ => None
  end = Some (redirect to_admin_dashboard).
Proof. by vm_compute. Qed.

(** The email lookup of [signup] is exact: the same address in another case
    is a new account. *)
Example signup_other_case_accepted :
  match signup (Some "Eve") (Some "A@x.com") (Some "pw9") Sample.anonymous with
  | Ok r w' => Some (r, List.map User.email (users (db w')))
  | Fault _ _ => None
  end
  = Some (redirect to_login_page,
          ["admin@barplexity.com"; "a@x.com"; "m@x.com"; "A@x.com"]).
Proof. by vm_compute. Qed.

(** * Further properties of the routes *)

(** ** [signin] *)

Lemma find_email_In (us : list User.t) (e : string) (u : User.t) :
  List.find (fun x => String.eqb (User.email x) e) us = Some u ->
  In u us /\ User.email u = e.
Proof.
  intros H. apply find_some in H as [Hin He]. by apply String.eqb_eq in He.
Qed.

(** [signin] never writes the tables and never calls the gateway; it
    either flashes one error and leaves the session alone, or it logs in a
    stored row whose email and password are the submitted ones and which is
    neither banned nor blocked. *)
Theorem signin_sound (w : World) (email password : option string) :
  exists r w',
    signin email password w = Ok r w'
    /\ db w' = db w /\ committed w' = committed w /\ prompts w' = prompts w
    /\ ((exists message, w' = flashed message "error" w)
        \/ (exists u,
              In u (users (db w))
              /\ email = Some (User.email u)
              /\ password = Some (User.password u)
              /\ User.is_banned u = false
              /\ User.is_blocked u = false
              /\ w' = signed_in u w
              /\ r = redirect (landing u))).
Proof.
  unfold signin. run. destruct email as [e|]; simpl.
  - destruct (List.find _ (users (db w))) as [u|] eqn:E; simpl.
    + apply find_email_In in E as [Hin <-].
      destruct (User.is_banned u) eqn:Hban; simpl.
      { eexists _, _. repeat split; eauto. }
      destruct (User.is_blocked u) eqn:Hblk; simpl.
      { eexists _, _. repeat split; eauto. }
      case_bool_decide as Hpw; simpl.
      * exists (redirect (landing u)), (signed_in u w).
        split; [unfold landing; by destruct (User.is_admin u)|].
        do 3 (split; [done|]). right. by exists u.
      * eexists _, _. repeat split; eauto.
    + eexists _, _. repeat split; eauto.
  - eexists _, _. repeat split; eauto.
Qed.

(** With unique emails, the stored password of a row that is neither
    banned nor blocked logs it in: both session keys are set, and the
    administrator goes to the dashboard, everyone else to the chat. *)
Theorem signin_success (w : World) (u : User.t) :
  NoDup (List.map User.email (users (db w))) ->
  In u (users (db w)) ->
  User.is_banned u = false ->
  User.is_blocked u = false ->
  signin (Some (User.email u)) (Some (User.password u)) w
  = Ok (redirect (landing u)) (signed_in u w).
Proof.
  intros Hnd Hin Hban Hblk. unfold signin. run.
  rewrite (find_unique_email _ _ Hnd Hin), Hban, Hblk.
  rewrite bool_decide_eq_true_2 by done. unfold landing.
  by destruct (User.is_admin u).
Qed.

Lemma signin_success_witness :
  signin (Some "a@x.com") (Some "pw1") Sample.anonymous
  = Ok (redirect to_chatbot) (signed_in Sample.alice Sample.anonymous).
Proof.
  apply (signin_success Sample.anonymous Sample.alice).
  - apply (bool_decide_unpack _). vm_compute. reflexivity.
  - simpl. tauto.
  - reflexivity.
  - reflexivity.
Defined.

(** A blocked row that is not banned is refused with a message of its own,
    whatever the password, and sent to the login page. *)
Theorem signin_blocked_rejected (w : World) (u : User.t) (password : option string) :
  NoDup (List.map User.email (users (db w))) ->
  In u (users (db w)) ->
  User.is_banned u = false ->
  User.is_blocked u = true ->
  signin (Some (User.email u)) password w
  = Ok (redirect to_login_page) (flashed "You are blocked. Contact admin." "error" w).
Proof.
  intros Hnd Hin Hban Hblk. unfold signin. run.
  by rewrite (find_unique_email _ _ Hnd Hin), Hban, Hblk.
Qed.

Lemma signin_blocked_rejected_witness :
  signin (Some "b@x.com") (Some "pw2") Desk.anonymous
  = Ok (redirect to_login_page)
       (flashed "You are blocked. Contact admin." "error" Desk.anonymous).
Proof.
  apply (signin_blocked_rejected Desk.anonymous Desk.bob (Some "pw2")).
  - apply (bool_decide_unpack _). vm_compute. reflexivity.
  - simpl. tauto.
  - reflexivity.
  - reflexivity.
Defined.

(** ** [signup] *)

Lemma find_snoc {A : Type} (f : A -> bool) (l : list A) (x : A) :
  List.find f l = None ->
  List.find f (l ++ [x])%list = if f x then Some x else None.
Proof.
  induction l as [|y l IH]; simpl; [done|].
  destruct (f y); [done|]. apply IH.
Qed.

(** A signup with a field that is missing or empty is refused before the
    tables are read: one flashed error, a redirect home, nothing stored. *)
Theorem signup_missing_field (w : World) (name email password : option string) :
  truthy name = false \/ truthy email = false \/ truthy password = false ->
  signup name email password w
  = Ok (redirect to_home) (flashed "All fields are required!" "error" w).
Proof.
  intros H. unfold signup.
  assert (negb (truthy name) || negb (truthy email) || negb (truthy password) = true)
    as ->; [|done].
  destruct H as [-> | [-> | ->]]; simpl; [done| |].
  - by destruct (truthy name).
  - by destruct (truthy name), (truthy email).
Qed.

Lemma signup_missing_field_witness :
  signup (Some "Eve") (Some "") None Sample.anonymous
  = Ok (redirect to_home) (flashed "All fields are required!" "error" Sample.anonymous).
Proof.
  apply (signup_missing_field Sample.anonymous (Some "Eve") (Some "") None).
  right. left. reflexivity.
Defined.

(** A signup with three non-empty fields and an email that no row has
    appends one row with a new key, the fields as given and the three flags
    off, and commits; a signin with the same email and password then logs
    that row in and lands on the chat. *)
Theorem signup_then_signin (w : World) (name email password : string) :
  name <> "" -> email <> "" -> password <> "" ->
  User_first_by_email (Some email) (db w) = None ->
  let u := User.mk (next_rowid (List.map User.id (users (db w))))
                   name email password false false false in
  exists w1,
    signup (Some name) (Some email) (Some password) w = Ok (redirect to_login_page) w1
    /\ db w1 = mkDB (users (db w) ++ [u]) (chat_sessions (db w)) (chats (db w))
    /\ committed w1 = db w1 :: committed w
    /\ session w1 = session w
    /\ signin (Some email) (Some password) w1 = Ok (redirect to_chatbot) (signed_in u w1).
Proof.
  intros Hn He Hp Hnone u.
  assert (Tn : truthy (Some name) = true) by (by destruct name).
  assert (Te : truthy (Some email) = true) by (by destruct email).
  assert (Tp : truthy (Some password) = true) by (by destruct password).
  unfold User_first_by_email in Hnone.
  eexists. split.
  { unfold signup. rewrite Tn, Te, Tp. run. rewrite Hnone. by run. }
  simpl. do 3 (split; [done|]).
  unfold signin. run. rewrite (find_snoc _ _ _ Hnone). simpl.
  rewrite String.eqb_refl. simpl. by rewrite bool_decide_eq_true_2.
Qed.

Lemma signup_then_signin_witness :
  let u := User.mk 4 "Eve" "e@x.com" "pw9" false false false in
  exists w1,
    signup (Some "Eve") (Some "e@x.com") (Some "pw9") Sample.anonymous
    = Ok (redirect to_login_page) w1
    /\ db w1 = mkDB (users (db Sample.anonymous) ++ [u])
                    (chat_sessions (db Sample.anonymous)) (chats (db Sample.anonymous))
    /\ committed w1 = db w1 :: committed Sample.anonymous
    /\ session w1 = session Sample.anonymous
    /\ signin (Some "e@x.com") (Some "pw9") w1 = Ok (redirect to_chatbot) (signed_in u w1).
Proof.
  apply (signup_then_signin Sample.anonymous "Eve" "e@x.com" "pw9"); done.
Defined.

(** The routes that write the user table keep both of its constraints:
    after the start-up code, a signup, a block or a delete, however it ends,
    keys and emails are still unique. *)
Theorem user_table_constraints_kept (w : World) :
  keys_unique (db w) ->
  keys_unique (db (final (bootstrap w)))
  /\ (forall name email password, keys_unique (db (final (signup name email password w))))
  /\ (forall uid, keys_unique (db (final (block_user uid w))))
  /\ (forall uid, keys_unique (db (final (delete_user uid w)))).
Proof.
  intros Hk. split; [|split; [|split]].
  - pose proof (bootstrap_keys_unique w Hk) as H. by destruct (bootstrap w).
  - intros name email password.
    pose proof (signup_keys_unique w name email password Hk) as H.
    by destruct (signup name email password w).
  - intros uid. pose proof (block_user_keys_unique w uid Hk) as H.
    by destruct (block_user uid w).
  - intros uid. pose proof (delete_user_keys_unique w uid Hk) as H.
    by destruct (delete_user uid w).
Qed.

Lemma user_table_constraints_kept_witness :
  keys_unique (db (final (bootstrap Desk.anonymous)))
  /\ (forall name email password,
        keys_unique (db (final (signup name email password Desk.anonymous))))
  /\ (forall uid, keys_unique (db (final (block_user uid Desk.anonymous))))
  /\ (forall uid, keys_unique (db (final (delete_user uid Desk.anonymous)))).
Proof.
  apply (user_table_constraints_kept Desk.anonymous).
  split; apply (bool_decide_unpack _); vm_compute; reflexivity.
Defined.

(** ** Start-up *)

(** The start-up code makes sure a row with the administrator's email
    exists and is idempotent: it keeps the rows there are, adds the built-in
    administrator only when no row has that email, and a second run changes
    nothing. *)
Theorem bootstrap_idempotent (w : World) :
  exists w1,
    bootstrap w = Ok tt w1
    /\ bootstrap w1 = Ok tt w1
    /\ (exists added, users (db w1) = (users (db w) ++ added)%list
                      /\ (User_first_by_email (Some admin_email) (db w) = None ->
                          added = [User.mk (next_rowid (List.map User.id (users (db w))))
                                           "Admin" admin_email "12345678"
                                           false false true])
                      /\ (is_Some (User_first_by_email (Some admin_email) (db w)) ->
                          added = []))
    /\ is_Some (User_first_by_email (Some admin_email) (db w1))
    /\ chat_sessions (db w1) = chat_sessions (db w)
    /\ chats (db w1) = chats (db w).
Proof.
  unfold bootstrap. run.
  destruct (List.find _ (users (db w))) as [u|] eqn:E; simpl.
  - exists w. rewrite E. split; [done|]. split; [done|]. split.
    + exists []. rewrite app_nil_r. split; [done|]. split; [done|]. done.
    + split; [by eexists|]. done.
  - eexists. split; [done|]. simpl. rewrite (find_snoc _ _ _ E). simpl.
    split; [done|]. split.
    + eexists. split; [done|]. split; [done|]. by intros [? ?].
    + split; [by eexists|]. done.
Qed.

(** ** The administrator's routes *)

(** For an administrator the dashboard changes nothing and lists every
    row except the ones with the built-in administrator's email. *)
Theorem admin_dashboard_lists_others (w : World) (v : pyval) (a : User.t) :
  session w !! "user_id" = Some v ->
  User_get_py v (db w) = Some a ->
  User.is_admin a = true ->
  exists listed,
    admin_dashboard w = Ok (render_admin listed) w
    /\ forall u, In u listed <-> In u (users (db w)) /\ User.email u <> admin_email.
Proof.
  intros Hv Ha Hadm. eexists. split.
  { by rewrite admin_dashboard_guard, Hv, Ha, Hadm. }
  intros u. rewrite filter_In. split; intros [Hin He]; (split; [done|]).
  - intros Heq. rewrite Heq, String.eqb_refl in He. done.
  - destruct (String.eqb (User.email u) admin_email) eqn:E; [|done].
    by apply String.eqb_eq in E.
Qed.

Lemma admin_dashboard_lists_others_witness :
  exists listed,
    admin_dashboard Desk.as_admin = Ok (render_admin listed) Desk.as_admin
    /\ forall u, In u listed
                 <-> In u (users (db Desk.as_admin)) /\ User.email u <> admin_email.
Proof.
  apply (admin_dashboard_lists_others Desk.as_admin (PyInt 1) Desk.admin); reflexivity.
Defined.

(** A user id that no row has: [block_user] and [delete_user] write
    nothing and flash nothing; they redirect to the dashboard when the id
    fits a signed 64-bit integer, and otherwise end in the [OverflowError]
    of the lookup. *)
Theorem unknown_user_id_is_no_op (w : World) (uid : Z) :
  User_get uid (db w) = None ->
  block_user uid w
  = (if int64 uid then Ok (redirect to_admin_dashboard) w else Fault OverflowError w)
  /\ delete_user uid w
     = (if int64 uid then Ok (redirect to_admin_dashboard) w else Fault OverflowError w).
Proof.
  intros H. split.
  - unfold block_user. run. rewrite H. by destruct (int64 uid).
  - unfold delete_user. run. rewrite H. by destruct (int64 uid).
Qed.

Lemma unknown_user_id_is_no_op_witness :
  block_user 9 Desk.as_admin = Ok (redirect to_admin_dashboard) Desk.as_admin
  /\ delete_user 9 Desk.as_admin = Ok (redirect to_admin_dashboard) Desk.as_admin.
Proof.
  apply (unknown_user_id_is_no_op Desk.as_admin 9). reflexivity.
Defined.

(** ** Blocking, deleting and the login *)

Lemma NoDup_map_eq {A B : Type} (f : A -> B) (l : list A) (x y : A) :
  NoDup (List.map f l) -> In x l -> In y l -> f x = f y -> x = y.
Proof.
  induction l as [|z l IH]; simpl; [done|].
  intros Hnd Hx Hy Hf. apply NoDup_cons in Hnd as [Hz Hnd].
  destruct Hx as [->|Hx], Hy as [->|Hy]; try done.
  - exfalso. apply Hz. rewrite Hf. apply list_elem_of_In. by apply in_map.
  - exfalso. apply Hz. rewrite <- Hf. apply list_elem_of_In. by apply in_map.
  - by apply IH.
Qed.

Lemma User_get_of_In (d : DB) (u : User.t) :
  NoDup (List.map User.id (users d)) -> In u (users d) -> User_get (User.id u) d = Some u.
Proof.
  intros Hnd Hin. unfold User_get.
  destruct (List.find _ (users d)) as [x|] eqn:E.
  - apply find_some in E as [Hx Hid]. f_equal.
    apply (NoDup_map_eq User.id (users d)); [done..|lia].
  - apply (find_none _ _ E) in Hin. lia.
Qed.

(** What [signin] answers once the row of the email is known. *)
Lemma signin_of_row (w : World) (e : string) (password : option string) (u : User.t) :
  User_first_by_email (Some e) (db w) = Some u ->
  signin (Some e) password w
  = if User.is_banned u
    then Ok (redirect to_home) (flashed "This email is banned. Contact admin." "error" w)
    else if User.is_blocked u
    then Ok (redirect to_login_page) (flashed "You are blocked. Contact admin." "error" w)
    else if bool_decide (Some (User.password u) = password)
    then Ok (redirect (landing u)) (signed_in u w)
    else Ok (redirect to_home) (flashed "Invalid credentials!" "error" w).
Proof.
  intros H. unfold signin, User_first_by_email in *. run. rewrite H.
  destruct (User.is_banned u); [done|]. destruct (User.is_blocked u); [done|].
  case_bool_decide; [|done]. unfold landing. by destruct (User.is_admin u).
Qed.

Lemma signin_unknown (w : World) (e : string) (password : option string) :
  User_first_by_email (Some e) (db w) = None ->
  signin (Some e) password w
  = Ok (redirect to_login_page) (flashed "Invalid credentials!" "error" w).
Proof.
  intros H. unfold signin, User_first_by_email in *. run. by rewrite H.
Qed.

Lemma In_update_user (k : Z) (f : User.t -> User.t) (d : DB) (u : User.t) :
  In u (users d) -> User.id u = k -> In (f u) (users (update_user k f d)).
Proof.
  intros Hin Hk. unfold update_user. simpl. apply in_map_iff. exists u.
  split; [|done]. by assert ((User.id u =? k) = true) as -> by lia.
Qed.

(** Blocking takes effect at the next login and a second call undoes it:
    after [block_user] on a user who could log in, the right password is
    refused with the message for blocked accounts; after a second
    [block_user] it logs the user in again. *)
Theorem block_user_gates_signin (w : World) (u : User.t) :
  keys_unique (db w) ->
  In u (users (db w)) ->
  User.is_banned u = false ->
  User.is_blocked u = false ->
  exists w1 w2,
    block_user (User.id u) w = Ok (redirect to_admin_dashboard) w1
    /\ signin (Some (User.email u)) (Some (User.password u)) w1
       = Ok (redirect to_login_page) (flashed "You are blocked. Contact admin." "error" w1)
    /\ block_user (User.id u) w1 = Ok (redirect to_admin_dashboard) w2
    /\ signin (Some (User.email u)) (Some (User.password u)) w2
       = Ok (redirect (landing u)) (signed_in u w2).
Proof.
  intros Hk Hin Hban Hblk. pose proof Hk as [Hid Hem].
  pose proof (User_get_of_In _ _ Hid Hin) as Hget.
  set (flip := User.set_is_blocked (negb (User.is_blocked u))).
  assert (Hk1 : keys_unique (update_user (User.id u) flip (db w)))
    by (by apply update_user_keys_unique).
  assert (Hget1 : User_get (User.id u) (update_user (User.id u) flip (db w))
                  = Some (flip u)).
  { rewrite User_get_update_user by done. by rewrite Z.eqb_refl, Hget. }
  eexists _, _. split; [by apply block_user_found|].
  split.
  { rewrite (signin_of_row _ _ _ (flip u)).
    - simpl. rewrite Hban, Hblk. done.
    - simpl. change (User.email u) with (User.email (flip u)).
      apply find_unique_email; [apply Hk1|]. by apply In_update_user. }
  split; [by apply block_user_found|].
  rewrite (signin_of_row _ _ _ u).
  - simpl. rewrite Hban, Hblk. by rewrite bool_decide_eq_true_2.
  - unfold flashed, commit_db, with_db. cbn [db].
    rewrite update_user_compose by done.
    rewrite (update_user_same_flag _ _ (db w) u Hid Hget).
    + by apply find_unique_email.
    + destruct u as [i n e p b bn ad]. simpl. by rewrite negb_involutive.
Qed.

Lemma block_user_gates_signin_witness :
  exists w1 w2,
    block_user 2 Desk.anonymous = Ok (redirect to_admin_dashboard) w1
    /\ signin (Some "a@x.com") (Some "pw1") w1
       = Ok (redirect to_login_page) (flashed "You are blocked. Contact admin." "error" w1)
    /\ block_user 2 w1 = Ok (redirect to_admin_dashboard) w2
    /\ signin (Some "a@x.com") (Some "pw1") w2
       = Ok (redirect to_chatbot) (signed_in Desk.alice w2).
Proof.
  apply (block_user_gates_signin Desk.anonymous Desk.alice).
  - split; apply (bool_decide_unpack _); vm_compute; reflexivity.
  - simpl. tauto.
  - reflexivity.
  - reflexivity.
Defined.

Lemma signup_accepts (w : World) (name email password : string) :
  name <> "" -> email <> "" -> password <> "" ->
  User_first_by_email (Some email) (db w) = None ->
  signup (Some name) (Some email) (Some password) w
  = Ok (redirect to_login_page)
       (flashed "Signup successful! Please login." "success"
          (commit_db (with_db (add_user name email password false) w))).
Proof.
  intros Hn He Hp Hnone.
  assert (Tn : truthy (Some name) = true) by (by destruct name).
  assert (Te : truthy (Some email) = true) by (by destruct email).
  assert (Tp : truthy (Some password) = true) by (by destruct password).
  unfold User_first_by_email in Hnone.
  unfold signup. rewrite Tn, Te, Tp. run. rewrite Hnone. by run.
Qed.

Lemma users_after_delete (uid : Z) (f : User.t -> User.t) (d : DB) (x : User.t) :
  (forall u, User.id (f u) = User.id u) ->
  In x (users (delete_user_row uid (update_user uid f d)))
  <-> In x (users d) /\ User.id x <> uid.
Proof.
  intros Hf. unfold delete_user_row. cbn [users]. rewrite cascade_users.
  unfold update_user. cbn [users]. rewrite filter_In, in_map_iff. split.
  - intros [(y & Hy & Hin) Hid].
    destruct (User.id y =? uid) eqn:E.
    + subst x. rewrite Hf in Hid. lia.
    + subst x. split; [done|lia].
  - intros [Hin Hid]. split; [|lia]. exists x.
    by assert ((User.id x =? uid) = false) as -> by lia.
Qed.

(** The ban written by [delete_user] goes away with the row: afterwards
    the old email and password get the answer for unknown credentials, not
    the one for banned accounts, and a new signup with that email is
    accepted as a row that is not banned. *)
Theorem delete_user_frees_email (w : World) (uid : Z) (u : User.t) (name password : string) :
  NoDup (List.map User.email (users (db w))) ->
  User_get uid (db w) = Some u ->
  name <> "" -> User.email u <> "" -> password <> "" ->
  exists w1 w2 u',
    delete_user uid w = Ok (redirect to_admin_dashboard) w1
    /\ signin (Some (User.email u)) (Some (User.password u)) w1
       = Ok (redirect to_login_page) (flashed "Invalid credentials!" "error" w1)
    /\ signup (Some name) (Some (User.email u)) (Some password) w1
       = Ok (redirect to_login_page) w2
    /\ User_first_by_email (Some (User.email u)) (db w2) = Some u'
    /\ User.name u' = name /\ User.password u' = password
    /\ User.is_banned u' = false /\ User.is_blocked u' = false
    /\ User.is_admin u' = false.
Proof.
  intros Hem Hget Hn He Hp.
  pose proof (User_get_In _ _ _ Hget) as Hin.
  pose proof (User_get_id _ _ _ Hget) as Hid.
  set (d1 := delete_user_row uid (update_user uid (User.set_is_banned true) (db w))).
  assert (Hfree : User_first_by_email (Some (User.email u)) d1 = None).
  { unfold User_first_by_email.
    destruct (List.find _ (users d1)) as [x|] eqn:E; [|done]. exfalso.
    apply find_email_In in E as [Hx Hxe].
    apply users_after_delete in Hx as [Hx Hxid]; [|done].
    apply Hxid. rewrite <- Hid. f_equal.
    by apply (NoDup_map_eq User.email (users (db w))). }
  eexists _, _, _. split.
  { unfold delete_user. run. rewrite Hget. by run. }
  split.
  { apply signin_unknown. exact Hfree. }
  split.
  { by apply signup_accepts. }
  unfold flashed, commit_db, with_db. cbn [db]. fold d1.
  unfold User_first_by_email in *. unfold add_user. cbn [users].
  rewrite (find_snoc _ _ _ Hfree). cbn [User.email].
  rewrite String.eqb_refl. done.
Qed.

Lemma delete_user_frees_email_witness :
  exists w1 w2 u',
    delete_user 2 Desk.as_admin = Ok (redirect to_admin_dashboard) w1
    /\ signin (Some "a@x.com") (Some "pw1") w1
       = Ok (redirect to_login_page) (flashed "Invalid credentials!" "error" w1)
    /\ signup (Some "Alice again") (Some "a@x.com") (Some "pw7") w1
       = Ok (redirect to_login_page) w2
    /\ User_first_by_email (Some "a@x.com") (db w2) = Some u'
    /\ User.name u' = "Alice again" /\ User.password u' = "pw7"
    /\ User.is_banned u' = false /\ User.is_blocked u' = false
    /\ User.is_admin u' = false.
Proof.
  apply (delete_user_frees_email Desk.as_admin 2 Desk.alice "Alice again" "pw7");
    try done.
  apply (bool_decide_unpack _). vm_compute. reflexivity.
Defined.

(** ** What the deletes leave alone *)

Lemma cascade_sessions_iff (ks : list Z) (d : DB) (s : ChatSession.t) :
  In s (chat_sessions (fold_left (fun acc k => delete_chat_session k acc) ks d))
  <-> In s (chat_sessions d) /\ ~ In (ChatSession.id s) ks.
Proof.
  revert d. induction ks as [|k ks IH]; simpl; intros d; [tauto|].
  rewrite IH. cbn [chat_sessions delete_chat_session]. rewrite filter_In.
  destruct (ChatSession.id s =? k) eqn:E; simpl; split; intros H.
  - destruct H as [[_ ?] _]. done.
  - exfalso. apply H. left. lia.
  - split; [tauto|]. intros [?|?]; [lia|tauto].
  - split; [split; [tauto|done]|]. tauto.
Qed.

Lemma cascade_chats_iff (ks : list Z) (d : DB) (c : Chat.t) :
  In c (chats (fold_left (fun acc k => delete_chat_session k acc) ks d))
  <-> In c (chats d) /\ ~ In (Chat.session_id c) ks.
Proof.
  revert d. induction ks as [|k ks IH]; simpl; intros d; [tauto|].
  rewrite IH. cbn [chats delete_chat_session]. rewrite filter_In.
  destruct (Chat.session_id c =? k) eqn:E; simpl; split; intros H.
  - destruct H as [[_ ?] _]. done.
  - exfalso. apply H. left. lia.
  - split; [tauto|]. intros [?|?]; [lia|tauto].
  - split; [split; [tauto|done]|]. tauto.
Qed.

Lemma owned_session_ids_In (uid k : Z) (d : DB) :
  In k (owned_session_ids uid d)
  <-> exists s, In s (chat_sessions d) /\ ChatSession.user_id s = uid /\ ChatSession.id s = k.
Proof.
  unfold owned_session_ids. rewrite in_map_iff. split.
  - intros (s & Hk & Hin). apply filter_In in Hin as [Hin Hu]. exists s.
    repeat split; [done|lia|done].
  - intros (s & Hin & Hu & Hk). exists s. split; [done|].
    apply filter_In. split; [done|lia].
Qed.

(** [delete_user] removes nothing but the user, the user's chat sessions
    and the chats of those sessions: every other user row stays as it is,
    and with unique session keys so does every session of another user and
    every chat of a session that stays. *)
Theorem delete_user_spares_others (w : World) (uid : Z) (u : User.t) :
  NoDup (List.map ChatSession.id (chat_sessions (db w))) ->
  User_get uid (db w) = Some u ->
  exists w',
    delete_user uid w = Ok (redirect to_admin_dashboard) w'
    /\ (forall x, In x (users (db w')) <-> In x (users (db w)) /\ User.id x <> uid)
    /\ (forall s, In s (chat_sessions (db w'))
                  <-> In s (chat_sessions (db w)) /\ ChatSession.user_id s <> uid)
    /\ (forall c, In c (chats (db w'))
                  <-> In c (chats (db w))
                      /\ ~ exists s, In s (chat_sessions (db w))
                                     /\ ChatSession.user_id s = uid
                                     /\ ChatSession.id s = Chat.session_id c).
Proof.
  intros Hnd Hget. eexists. split.
  { unfold delete_user. run. rewrite Hget. by run. }
  unfold flashed, commit_db, with_db. cbn [db]. split; [|split].
  - intros x. by apply users_after_delete.
  - intros s. unfold delete_user_row. cbn [chat_sessions].
    rewrite cascade_sessions_iff.
    change (chat_sessions (update_user uid (User.set_is_banned true) (db w)))
      with (chat_sessions (db w)).
    change (owned_session_ids uid (update_user uid (User.set_is_banned true) (db w)))
      with (owned_session_ids uid (db w)).
    rewrite owned_session_ids_In. split.
    + intros [Hin Hn]. split; [done|]. intros Hu. apply Hn. by exists s.
    + intros [Hin Hu]. split; [done|]. intros (s0 & Hin0 & Hu0 & Hid0).
      apply Hu. rewrite <- Hu0. f_equal. symmetry.
      by apply (NoDup_map_eq ChatSession.id (chat_sessions (db w))).
  - intros c. unfold delete_user_row. cbn [chats].
    rewrite cascade_chats_iff.
    change (chats (update_user uid (User.set_is_banned true) (db w)))
      with (chats (db w)).
    change (owned_session_ids uid (update_user uid (User.set_is_banned true) (db w)))
      with (owned_session_ids uid (db w)).
    by rewrite owned_session_ids_In.
Qed.

Lemma delete_user_spares_others_witness :
  exists w',
    delete_user 2 Desk.as_admin = Ok (redirect to_admin_dashboard) w'
    /\ (forall x, In x (users (db w')) <-> In x (users (db Desk.as_admin)) /\ User.id x <> 2)
    /\ (forall s, In s (chat_sessions (db w'))
                  <-> In s (chat_sessions (db Desk.as_admin)) /\ ChatSession.user_id s <> 2)
    /\ (forall c, In c (chats (db w'))
                  <-> In c (chats (db Desk.as_admin))
                      /\ ~ exists s, In s (chat_sessions (db Desk.as_admin))
                                     /\ ChatSession.user_id s = 2
                                     /\ ChatSession.id s = Chat.session_id c).
Proof.
  apply (delete_user_spares_others Desk.as_admin 2 Desk.alice); [|reflexivity].
  apply (bool_decide_unpack _). vm_compute. reflexivity.
Defined.

(** The owner's [delete_chat] removes that session and its chats and
    nothing else, in one commit; the user table is not touched. *)
Theorem delete_chat_removes_only_session
    (w : World) (sid uid : Z) (display_name : pyval) (cs : ChatSession.t) :
  session w !! "user" = Some display_name ->
  session w !! "user_id" = Some (PyInt uid) ->
  ChatSession_get sid (db w) = Some cs ->
  ChatSession.user_id cs = uid ->
  exists w',
    delete_chat sid w = Ok (json_status "success" None 200) w'
    /\ users (db w') = users (db w)
    /\ (forall s, In s (chat_sessions (db w'))
                  <-> In s (chat_sessions (db w)) /\ ChatSession.id s <> sid)
    /\ (forall c, In c (chats (db w'))
                  <-> In c (chats (db w)) /\ Chat.session_id c <> sid)
    /\ ChatSession_get sid (db w') = None
    /\ committed w' = db w' :: committed w
    /\ session w' = session w.
Proof.
  intros Huser Huid Hget Hown. eexists. split.
  { unfold delete_chat. run. rewrite Huser. simpl. rewrite Hget. simpl.
    rewrite Huid. simpl. rewrite bool_decide_eq_true_2 by (by rewrite Hown). done. }
  cbn [db commit_db with_db committed session]. split; [done|]. split; [|split; [|split]].
  - intros s. cbn [chat_sessions delete_chat_session]. rewrite filter_In.
    destruct (ChatSession.id s =? sid) eqn:E; simpl; split; intros [? ?];
      try done; split; try done; lia.
  - intros c. cbn [chats delete_chat_session]. rewrite filter_In.
    destruct (Chat.session_id c =? sid) eqn:E; simpl; split; intros [? ?];
      try done; split; try done; lia.
  - unfold ChatSession_get. cbn [chat_sessions delete_chat_session].
    destruct (List.find _ _) as [x|] eqn:E; [|done].
    apply find_some in E as [Hin Hx]. apply filter_In in Hin as [_ Hin]. lia.
  - done.
Qed.

Lemma delete_chat_removes_only_session_witness :
  exists w',
    delete_chat 1 Desk.as_alice = Ok (json_status "success" None 200) w'
    /\ users (db w') = users (db Desk.as_alice)
    /\ (forall s, In s (chat_sessions (db w'))
                  <-> In s (chat_sessions (db Desk.as_alice)) /\ ChatSession.id s <> 1)
    /\ (forall c, In c (chats (db w'))
                  <-> In c (chats (db Desk.as_alice)) /\ Chat.session_id c <> 1)
    /\ ChatSession_get 1 (db w') = None
    /\ committed w' = db w' :: committed Desk.as_alice
    /\ session w' = session Desk.as_alice.
Proof.
  apply (delete_chat_removes_only_session Desk.as_alice 1 2 (PyStr "Alice") Desk.travel);
    reflexivity.
Defined.

(** ** The two keys of the login *)

Lemma signed_in_coherent (u : User.t) (w : World) : session_coherent (signed_in u w).
Proof.
  unfold session_coherent, signed_in. simpl.
  rewrite lookup_insert_eq, lookup_insert_ne by done. rewrite lookup_insert_eq.
  by split; eexists.
Qed.

Lemma signin_cases (w : World) (email password : option string) :
  exists r w',
    signin email password w = Ok r w'
    /\ ((exists message, w' = flashed message "error" w) \/ exists u, w' = signed_in u w).
Proof.
  unfold signin. run.
  destruct (User_first_by_email email (db w)) as [u|]; simpl;
    [|eexists _, _; split; [done|]; left; by eexists].
  destruct (User.is_banned u); [eexists _, _; split; [done|]; left; by eexists|].
  destruct (User.is_blocked u); [eexists _, _; split; [done|]; left; by eexists|].
  case_bool_decide; [|eexists _, _; split; [done|]; left; by eexists].
  destruct (User.is_admin u); simpl; eexists _, _; (split; [done|]); right; by exists u.
Qed.

Ltac by_cases :=
  run; repeat case_match; simpl in *; simplify_eq; try done.

(** No route sets or drops one of ["user"] and ["user_id"] without the
    other: if the session has both or neither before a request, so it has
    after it, whichever route serves it and however it ends. *)
Theorem session_keys_stay_paired
    (generate_content : list string -> string -> string + string) (w : World) :
  session_coherent w ->
  (forall name email password, session_coherent (final (signup name email password w)))
  /\ (forall email password, session_coherent (final (signin email password w)))
  /\ session_coherent (final (logout w))
  /\ session_coherent (final (admin_dashboard w))
  /\ (forall uid, session_coherent (final (block_user uid w)))
  /\ (forall uid, session_coherent (final (delete_user uid w)))
  /\ (forall sid, session_coherent (final (delete_chat sid w)))
  /\ (forall method sid message,
        session_coherent (final (chatbot generate_content method sid message w)))
  /\ (forall message sid,
        session_coherent (final (chatbot_api generate_content message sid w))).
Proof.
  intros Hc.
  assert (Hempty : forall d c f p t v, session_coherent (mkWorld d c ∅ f p t v)).
  { intros. unfold session_coherent. simpl. rewrite !lookup_empty.
    split; intros [? ?]; done. }
  assert (Hsame : forall d c f p t v, session_coherent (mkWorld d c (session w) f p t v))
    by (intros; exact Hc).
  split; [intros name email password; unfold signup; by_cases|].
  split.
  { intros email password.
    destruct (signin_cases w email password) as (r & w' & -> & H).
    simpl. destruct H as [[message ->]|[u ->]]; [done|].
    apply signed_in_coherent. }
  split; [unfold logout; by_cases|].
  split; [unfold admin_dashboard; by_cases|].
  split; [intros uid; unfold block_user; by_cases|].
  split; [intros uid; unfold delete_user; by_cases|].
  split; [intros sid; unfold delete_chat; by_cases|].
  split.
  - intros method sid message.
    unfold chatbot, chatbot_post, add_chat_and_commit, query_gemini_api. by_cases.
  - intros message sid.
    unfold chatbot_api, add_chat_and_commit, query_gemini_api. by_cases.
Qed.

Lemma session_keys_stay_paired_witness :
  (forall name email password,
      session_coherent (final (signup name email password Desk.as_alice)))
  /\ (forall email password, session_coherent (final (signin email password Desk.as_alice)))
  /\ session_coherent (final (logout Desk.as_alice))
  /\ session_coherent (final (admin_dashboard Desk.as_alice))
  /\ (forall uid, session_coherent (final (block_user uid Desk.as_alice)))
  /\ (forall uid, session_coherent (final (delete_user uid Desk.as_alice)))
  /\ (forall sid, session_coherent (final (delete_chat sid Desk.as_alice)))
  /\ (forall method sid message,
        session_coherent (final (chatbot Sample.parrot method sid message Desk.as_alice)))
  /\ (forall message sid,
        session_coherent (final (chatbot_api Sample.parrot message sid Desk.as_alice))).
Proof.
  apply (session_keys_stay_paired Sample.parrot Desk.as_alice).
  apply signed_in_coherent.
Defined.

(** With the two keys paired, the reads of [session["user_id"]] cannot
    fail: neither [delete_chat] nor [chatbot] ends in a [KeyError], and
    [delete_chat] answers every request whose session id fits a signed
    64-bit integer. *)
Theorem paired_keys_rule_out_key_errors
    (generate_content : list string -> string -> string + string) (w : World) :
  session_coherent w ->
  (forall sid, int64 sid = true -> exists r w', delete_chat sid w = Ok r w')
  /\ (forall sid key w', delete_chat sid w <> Fault (KeyError key) w')
  /\ (forall method sid message key w',
        chatbot generate_content method sid message w <> Fault (KeyError key) w').
Proof.
  intros [H1 H2]. split; [|split].
  - intros sid Hsid. unfold delete_chat. run.
    destruct (session w !! "user") as [v|] eqn:Eu; simpl; [|by eauto].
    destruct (H1 (ltac:(by eexists))) as [v' Ev'].
    destruct (ChatSession_get sid (db w)); simpl; [|rewrite Hsid; by eauto].
    rewrite Ev'. simpl. case_bool_decide; by eauto.
  - intros sid key w'. unfold delete_chat. run.
    destruct (session w !! "user") as [v|] eqn:Eu; simpl; [|done].
    destruct (H1 (ltac:(by eexists))) as [v' Ev'].
    destruct (ChatSession_get sid (db w)); simpl; [|by destruct (int64 sid)].
    rewrite Ev'. simpl. by case_bool_decide.
  - intros method sid message key w'. unfold chatbot. run.
    destruct (session w !! "user") as [v|] eqn:Eu; simpl; [|done].
    destruct (H1 (ltac:(by eexists))) as [v' Ev']. rewrite Ev'. simpl.
    unfold chatbot_post, add_chat_and_commit, query_gemini_api.
    by_cases; unfold commit_db, with_db, sent in *; simpl in *; congruence.
Qed.

Lemma paired_keys_rule_out_key_errors_witness :
  (forall sid, int64 sid = true -> exists r w', delete_chat sid Desk.as_alice = Ok r w')
  /\ (forall sid key w', delete_chat sid Desk.as_alice <> Fault (KeyError key) w')
  /\ (forall method sid message key w',
        chatbot Sample.parrot method sid message Desk.as_alice
        <> Fault (KeyError key) w').
Proof.
  apply (paired_keys_rule_out_key_errors Sample.parrot Desk.as_alice).
  apply signed_in_coherent.
Defined.

(** ** Requests without a login *)

Section Anonymous.

Variable generate_content : list string -> string -> string + string.

Lemma chatbot_anonymous (w : World) (method : http_method) (sid message : option string) :
  session w !! "user" = None ->
  chatbot generate_content method sid message w = Ok (redirect to_home) w.
Proof. intros H. unfold chatbot. run. by rewrite H. Qed.

Lemma chatbot_api_anonymous (w : World) (message : option string) (sid : option Z) :
  session w !! "user" = None ->
  chatbot_api generate_content message sid w = Ok (jsonify_reply "Please login first!") w.
Proof. intros H. unfold chatbot_api. run. by rewrite H. Qed.

Lemma admin_dashboard_anonymous (w : World) :
  session w !! "user_id" = None -> admin_dashboard w = denied w.
Proof. intros H. by rewrite admin_dashboard_guard, H. Qed.

End Anonymous.

(** Without ["user"] in the session the chat routes do nothing: the page
    route redirects home and the JSON route replies [Please login first!],
    for any arguments; nothing is stored and the gateway is not called. *)
Theorem chat_routes_need_login
    (generate_content : list string -> string -> string + string) (w : World) :
  session w !! "user" = None ->
  (forall method sid message,
      chatbot generate_content method sid message w = Ok (redirect to_home) w)
  /\ (forall message sid,
        chatbot_api generate_content message sid w
        = Ok (jsonify_reply "Please login first!") w).
Proof.
  intros H. split.
  - intros. by apply chatbot_anonymous.
  - intros. by apply chatbot_api_anonymous.
Qed.

Lemma chat_routes_need_login_witness :
  (forall method sid message,
      chatbot Sample.parrot method sid message Desk.anonymous
      = Ok (redirect to_home) Desk.anonymous)
  /\ (forall message sid,
        chatbot_api Sample.parrot message sid Desk.anonymous
        = Ok (jsonify_reply "Please login first!") Desk.anonymous).
Proof.
  apply (chat_routes_need_login Sample.parrot Desk.anonymous). reflexivity.
Defined.

(** [logout] always succeeds and ends the login: the session is empty, the
    only flashed message is the one of the logout, the tables are as they
    were, and the next request to any protected route is refused. *)
Theorem logout_ends_access
    (generate_content : list string -> string -> string + string) (w : World) :
  exists w1,
    logout w = Ok (redirect to_login_page) w1
    /\ session w1 = ∅
    /\ flashes w1 = [("Logged out successfully!", "success")]
    /\ db w1 = db w /\ committed w1 = committed w
    /\ (forall method sid message,
          chatbot generate_content method sid message w1 = Ok (redirect to_home) w1)
    /\ (forall message sid,
          chatbot_api generate_content message sid w1
          = Ok (jsonify_reply "Please login first!") w1)
    /\ (forall sid,
          delete_chat sid w1 = Ok (json_status "error" (Some "Unauthorized") 403) w1)
    /\ admin_dashboard w1 = denied w1.
Proof.
  eexists. split; [unfold logout; by run|].
  do 4 (split; [done|]).
  split; [intros; by apply chatbot_anonymous|].
  split; [intros; by apply chatbot_api_anonymous|].
  split; [intros; by apply delete_chat_anonymous|].
  by apply admin_dashboard_anonymous.
Qed.

(** A login whose user row is gone: the page route empties the session,
    drops the pending flashed messages with it and redirects home, without
    touching the tables. *)
Theorem chatbot_drops_stale_login
    (generate_content : list string -> string -> string + string)
    (w : World) (method : http_method) (sid message : option string)
    (display_name uid : pyval) :
  session w !! "user" = Some display_name ->
  session w !! "user_id" = Some uid ->
  User_get_py uid (db w) = None ->
  chatbot generate_content method sid message w
  = Ok (redirect to_home)
       (mkWorld (db w) (committed w) ∅ [] (prompts w) (now w) (views w)).
Proof.
  intros Hu Hid Hnone. unfold chatbot. run. rewrite Hu. simpl. rewrite Hid. simpl.
  by rewrite Hnone.
Qed.

Lemma chatbot_drops_stale_login_witness :
  chatbot Sample.parrot GET None None
          (signed_in (User.mk 9 "Ghost" "g@x.com" "pw" false false false) Desk.anonymous)
  = Ok (redirect to_home)
       (mkWorld Desk.tables [Desk.tables] ∅ [] [] 40 []).
Proof.
  apply (chatbot_drops_stale_login Sample.parrot
           (signed_in (User.mk 9 "Ghost" "g@x.com" "pw" false false false) Desk.anonymous)
           GET None None (PyStr "Ghost") (PyInt 9));
    reflexivity.
Defined.

(** ** The page route on GET *)

Lemma no_chats_of_new_session (d : DB) :
  chats_have_sessions d ->
  Chat_history (next_rowid (List.map ChatSession.id (chat_sessions d))) d = [].
Proof.
  intros Hfk. unfold Chat_history, Chat_filter_by_session.
  destruct (List.filter _ (chats d)) as [|c l] eqn:E; [done|]. exfalso.
  assert (Hin : In c (List.filter
                        (fun c => Chat.session_id c
                                  =? next_rowid (List.map ChatSession.id (chat_sessions d)))
                        (chats d))) by (rewrite E; by left).
  apply filter_In in Hin as [Hin Hk]. destruct (Hfk c Hin) as (s & Hs & Hid).
  apply (next_rowid_fresh (List.map ChatSession.id (chat_sessions d))).
  assert (next_rowid (List.map ChatSession.id (chat_sessions d)) = ChatSession.id s)
    as -> by lia.
  by apply in_map.
Qed.

(** Every GET of the page without a [session_id] (absent or empty) stores
    and commits a new chat session of the logged-in user, with a new key,
    the summary ["New Chat"] and the current time, and shows it with no
    messages; the sidebar is the one computed before the insertion. *)
Theorem chatbot_get_opens_session
    (generate_content : list string -> string -> string + string)
    (w : World) (sid message : option string) (uid display_name : pyval) (u : User.t) :
  session w !! "user" = Some display_name ->
  session w !! "user_id" = Some uid ->
  User_get_py uid (db w) = Some u ->
  truthy sid = false ->
  chats_have_sessions (db w) ->
  let cs := ChatSession.mk (next_rowid (List.map ChatSession.id (chat_sessions (db w))))
                           (User.id u) "New Chat" (now w) in
  exists w',
    chatbot generate_content GET sid message w
    = Ok (render_chatbot
            (List.map (sidebar_entry (db w)) (sessions_with_msgs (User.id u) (db w)))
            (ChatSession.id cs) [] display_name) w'
    /\ db w' = mkDB (users (db w)) (chat_sessions (db w) ++ [cs]) (chats (db w))
    /\ committed w' = db w' :: committed w
    /\ prompts w' = prompts w.
Proof.
  intros Hu Hid Hget Hsid Hfk cs. eexists. split.
  { unfold chatbot. run. rewrite Hu. simpl. rewrite Hid. simpl. rewrite Hget. simpl.
    rewrite Hsid. simpl. rewrite last_snoc. simpl. rewrite Hu.
    change (Chat_history _ _)
      with (Chat_history (next_rowid (List.map ChatSession.id (chat_sessions (db w))))
                         (db w)).
    by rewrite no_chats_of_new_session. }
  done.
Qed.

Lemma chatbot_get_opens_session_witness :
  let cs := ChatSession.mk 4 2 "New Chat" 40 in
  exists w',
    chatbot Sample.parrot GET (Some "") None Desk.as_alice
    = Ok (render_chatbot
            (List.map (sidebar_entry (db Desk.as_alice))
                      (sessions_with_msgs 2 (db Desk.as_alice)))
            4 [] (PyStr "Alice")) w'
    /\ db w' = mkDB (users (db Desk.as_alice)) (chat_sessions (db Desk.as_alice) ++ [cs])
                    (chats (db Desk.as_alice))
    /\ committed w' = db w' :: committed Desk.as_alice
    /\ prompts w' = prompts Desk.as_alice.
Proof.
  apply (chatbot_get_opens_session Sample.parrot Desk.as_alice (Some "") None
           (PyInt 2) (PyStr "Alice") Desk.alice); try reflexivity.
  intros c Hc. simpl in Hc.
  destruct Hc as [<-|[<-|[<-|[]]]]; [exists Desk.travel|exists Desk.travel|exists Desk.bobs];
    simpl; tauto.
Defined.

(** A GET with the id of a stored session shows that session's chats,
    oldest first, and writes nothing; the owner of the session is not
    compared with the logged-in user. *)
Theorem chatbot_get_shows_any_session
    (generate_content : list string -> string -> string + string)
    (w : World) (s : string) (message : option string) (k : Z) (cs : ChatSession.t)
    (uid display_name : pyval) (u : User.t) :
  session w !! "user" = Some display_name ->
  session w !! "user_id" = Some uid ->
  User_get_py uid (db w) = Some u ->
  truthy (Some s) = true ->
  PyInt.int s = Some k ->
  ChatSession_get k (db w) = Some cs ->
  chatbot generate_content GET (Some s) message w
  = Ok (render_chatbot
          (List.map (sidebar_entry (db w)) (sessions_with_msgs (User.id u) (db w)))
          k (Chat_history k (db w)) display_name) w.
Proof.
  intros Hu Hid Hget Hs Hk Hcs.
  pose proof (ChatSession_get_id _ _ _ Hcs) as Hcsid.
  destruct s as [|c s']; [discriminate Hs|].
  unfold chatbot. run. rewrite Hu. simpl. rewrite Hid. simpl. rewrite Hget. simpl.
  rewrite Hk. simpl. rewrite Hcs. simpl. by rewrite Hu, Hcsid.
Qed.

(** Alice is shown the chats of Bob's session 2. *)
Lemma chatbot_get_shows_any_session_witness :
  chatbot Sample.parrot GET (Some "2") None Desk.as_alice
  = Ok (render_chatbot
          (List.map (sidebar_entry (db Desk.as_alice))
                    (sessions_with_msgs 2 (db Desk.as_alice)))
          2 (Chat_history 2 (db Desk.as_alice)) (PyStr "Alice")) Desk.as_alice.
Proof.
  apply (chatbot_get_shows_any_session Sample.parrot Desk.as_alice "2" None 2 Desk.bobs
           (PyInt 2) (PyStr "Alice") Desk.alice);
    reflexivity.
Defined.

(** A [session_id] that [int] does not accept ends the page route in a
    [ValueError], on GET and on POST, before anything is written or sent. *)
Theorem chatbot_rejects_non_numeric_id
    (generate_content : list string -> string -> string + string)
    (w : World) (method : http_method) (s : string) (message : option string)
    (uid display_name : pyval) (u : User.t) :
  session w !! "user" = Some display_name ->
  session w !! "user_id" = Some uid ->
  User_get_py uid (db w) = Some u ->
  truthy (Some s) = true ->
  PyInt.int s = None ->
  chatbot generate_content method (Some s) message w = Fault ValueError w.
Proof.
  intros Hu Hid Hget Hs Hk.
  destruct s as [|c s']; [discriminate Hs|].
  unfold chatbot. run. rewrite Hu. simpl. rewrite Hid. simpl. rewrite Hget. simpl.
  by rewrite Hk.
Qed.

Lemma chatbot_rejects_non_numeric_id_witness :
  chatbot Sample.parrot POST (Some "abc") (Some "Hi") Desk.as_alice
  = Fault ValueError Desk.as_alice.
Proof.
  apply (chatbot_rejects_non_numeric_id Sample.parrot Desk.as_alice POST "abc" (Some "Hi")
           (PyInt 2) (PyStr "Alice") Desk.alice);
    reflexivity.
Defined.

(** ** Turns without a message *)

(** A turn whose [message] is missing still sends a prompt, with [None]
    formatted in the place of the message, and then fails: the JSON route in
    the commit of the row with a null [question], the page route at
    [user_message[:50]] when the summary is still the default; no chat is
    stored and nothing is committed. *)
Theorem turn_without_message_fails_after_prompt
    (generate_content : list string -> string -> string + string)
    (w : World) (s : string) (k : Z) (cs : ChatSession.t)
    (uid display_name : pyval) (u : User.t) :
  session w !! "user" = Some display_name ->
  session w !! "user_id" = Some uid ->
  User_get_py uid (db w) = Some u ->
  truthy (Some s) = true ->
  PyInt.int s = Some k ->
  ChatSession_get k (db w) = Some cs ->
  let prompt := transcript (Chat_history k (db w)) "None" in
  chatbot_api generate_content None (Some k) w = Fault IntegrityError (sent prompt w)
  /\ chatbot generate_content POST (Some s) None w
     = Fault (if String.eqb (ChatSession.summary cs) "New Chat"
              then TypeError else IntegrityError)
             (sent prompt w).
Proof.
  intros Hu Hid Hget Hs Hk Hcs prompt. subst prompt.
  pose proof (ChatSession_get_id _ _ _ Hcs) as Hcsid.
  rewrite <- (build_prompt_transcript _ "None").
  change (build_prompt (Chat_history k (db w)) (Some "None"))
    with (build_prompt (Chat_history k (db w)) None).
  split.
  - unfold chatbot_api. run. rewrite Hu. simpl. rewrite Hcs. simpl.
    rewrite query_gemini_api_reply. simpl. by rewrite Hcsid.
  - destruct s as [|c s']; [discriminate Hs|].
    unfold chatbot. run. rewrite Hu. simpl. rewrite Hid. simpl. rewrite Hget. simpl.
    rewrite Hk. simpl. rewrite Hcs. unfold chatbot_post. run.
    rewrite query_gemini_api_reply. simpl. rewrite Hcsid.
    by destruct (String.eqb (ChatSession.summary cs) "New Chat").
Qed.

Lemma turn_without_message_fails_after_prompt_witness :
  let prompt := transcript (Chat_history 3 (db Desk.as_alice)) "None" in
  chatbot_api Sample.parrot None (Some 3) Desk.as_alice
  = Fault IntegrityError (sent prompt Desk.as_alice)
  /\ chatbot Sample.parrot POST (Some "3") None Desk.as_alice
     = Fault (if String.eqb (ChatSession.summary Desk.empty) "New Chat"
              then TypeError else IntegrityError)
             (sent prompt Desk.as_alice).
Proof.
  apply (turn_without_message_fails_after_prompt Sample.parrot Desk.as_alice "3" 3
           Desk.empty (PyInt 2) (PyStr "Alice") Desk.alice);
    reflexivity.
Defined.

(** ** The sidebar *)

Lemma StronglySorted_weaken {A : Type} (R S : A -> A -> Prop) (l : list A) :
  (forall a b, R a b -> S a b) -> StronglySorted R l -> StronglySorted S l.
Proof.
  intros HRS. induction 1 as [|x l Hl IH Hx]; constructor; [done|].
  eapply Forall_impl; [exact Hx|]. intros b. apply HRS.
Qed.

Lemma StronglySorted_rev_flip {A : Type} (R : A -> A -> Prop) (l : list A) :
  StronglySorted R l -> StronglySorted (fun a b => R b a) (List.rev l).
Proof.
  induction 1 as [|x l Hl IH Hx]; simpl; [constructor|].
  apply StronglySorted_app. split; [|split; [done|repeat constructor]].
  intros a b Ha Hb. apply list_elem_of_singleton in Hb as ->.
  rewrite List.Forall_forall in Hx. apply Hx.
  apply list_elem_of_In in Ha. by apply in_rev.
Qed.

Lemma has_chat_iff (d : DB) (k : Z) :
  Chat_filter_by_session k d <> [] <-> exists c, In c (chats d) /\ Chat.session_id c = k.
Proof.
  unfold Chat_filter_by_session. split.
  - intros Hne. destruct (List.filter _ (chats d)) as [|c l] eqn:E; [done|].
    assert (Hc : In c (List.filter (fun c => Chat.session_id c =? k) (chats d)))
      by (rewrite E; by left).
    apply filter_In in Hc as [Hc Hk]. exists c. split; [done|lia].
  - intros (c & Hc & Hk) Hnil.
    assert (Hc' : In c (List.filter (fun c => Chat.session_id c =? k) (chats d))).
    { apply filter_In. split; [done|lia]. }
    by rewrite Hnil in Hc'.
Qed.

(** The sidebar query returns exactly the chat sessions of the user that
    have at least one chat, the newer before the older. *)
Theorem sidebar_lists_sessions_with_chats (uid : Z) (d : DB) :
  (forall s, In s (sessions_with_msgs uid d)
             <-> In s (chat_sessions d)
                 /\ ChatSession.user_id s = uid
                 /\ exists c, In c (chats d) /\ Chat.session_id c = ChatSession.id s)
  /\ StronglySorted (fun a b => ChatSession.timestamp b <= ChatSession.timestamp a)
                    (sessions_with_msgs uid d).
Proof.
  unfold sessions_with_msgs, order_by_desc. split.
  - intros s. rewrite <- has_chat_iff, <- in_rev.
    assert (Hperm : forall l : list ChatSession.t,
               In s (order_by_asc ChatSession.timestamp l) <-> In s l).
    { intros l. split; apply Permutation_in;
        [|symmetry]; apply order_by_asc_Permutation. }
    rewrite Hperm, filter_In, andb_true_iff, negb_true_iff, bool_decide_eq_false.
    rewrite Z.eqb_eq. tauto.
  - apply StronglySorted_rev_flip.
    eapply StronglySorted_weaken; [|apply order_by_asc_sorted].
    intros a b. unfold key_le. lia.
Qed.

(** ** The history of a session across turns *)

Lemma order_by_asc_snoc {A : Type} (key : A -> Z) (l : list A) (x : A) :
  order_by_asc key (l ++ [x]) = insert_by key x (order_by_asc key l).
Proof. unfold order_by_asc. by rewrite fold_left_app. Qed.

Lemma insert_by_last {A : Type} (key : A -> Z) (l : list A) (x : A) :
  (forall y, In y l -> key y <= key x) -> insert_by key x l = (l ++ [x])%list.
Proof.
  induction l as [|y l IH]; simpl; intros H; [done|].
  assert ((key x <? key y) = false) as ->.
  { apply Z.ltb_ge. apply H. by left. }
  rewrite IH; [done|]. intros z Hz. apply H. by right.
Qed.

Lemma Chat_history_add_chat (d : DB) (k j : Z) (q a : string) (t : Z) :
  (forall c, In c (chats d) -> Chat.session_id c = k -> Chat.timestamp c <= t) ->
  Chat_history j (add_chat k q a t d)
  = if j =? k
    then (Chat_history j d ++ [Chat.mk (next_rowid (List.map Chat.id (chats d))) k q a t])%list
    else Chat_history j d.
Proof.
  intros Hts. unfold Chat_history, Chat_filter_by_session, add_chat. cbn [chats].
  rewrite List.filter_app. cbn [List.filter Chat.session_id].
  rewrite (Z.eqb_sym k j). destruct (j =? k) eqn:E.
  - rewrite order_by_asc_snoc, insert_by_last; [done|].
    intros y Hy. cbn [Chat.timestamp].
    eapply Permutation_in in Hy; [|apply order_by_asc_Permutation].
    apply filter_In in Hy as [Hy Hk]. apply Hts; [done|lia].
  - by rewrite app_nil_r.
Qed.

Lemma build_prompt_next (h : list Chat.t) (row : Chat.t) (m : string) :
  build_prompt (h ++ [row]) (Some m)
  = build_prompt h (Some (Chat.question row))
    +:+ (" " +:+ Chat.answer row +:+ nl +:+ "User: " +:+ m +:+ nl +:+ "Bot:").
Proof.
  rewrite !build_prompt_transcript. unfold transcript. rewrite foldr_app. simpl.
  induction h as [|c h IH]; simpl.
  - unfold turn_text. by rewrite !string_app_assoc.
  - rewrite IH. symmetry. apply string_app_assoc.
Qed.

(** A turn through the JSON route at a time not before the timestamps of
    the session's chats puts the new question and reply at the end of that
    session's history and leaves every other history as it was; the prompt
    of the following turn is then the prompt of this one, continued by the
    reply and the next message. *)
Theorem turn_extends_history_and_prompt
    (generate_content : list string -> string -> string + string)
    (w : World) (m m2 : string) (k t2 : Z) (cs : ChatSession.t) (display_name : pyval) :
  session w !! "user" = Some display_name ->
  ChatSession_get k (db w) = Some cs ->
  (forall c, In c (chats (db w)) -> Chat.session_id c = k -> Chat.timestamp c <= now w) ->
  let prompt := build_prompt (Chat_history k (db w)) (Some m) in
  let reply := reply_text (generate_content (prompts w) prompt) in
  let row := Chat.mk (next_rowid (List.map Chat.id (chats (db w)))) k m reply (now w) in
  exists w1 r2 w2,
    chatbot_api generate_content (Some m) (Some k) w = Ok (jsonify_reply reply) w1
    /\ Chat_history k (db w1) = (Chat_history k (db w) ++ [row])%list
    /\ (forall j, j <> k -> Chat_history j (db w1) = Chat_history j (db w))
    /\ chatbot_api generate_content (Some m2) (Some k) (at_time t2 w1) = Ok r2 w2
    /\ prompts w2
       = (prompts w
            ++ [prompt;
                prompt +:+ (" " +:+ reply +:+ nl +:+ "User: " +:+ m2 +:+ nl +:+ "Bot:")])%list.
Proof.
  intros Hu Hcs Hts prompt reply row.
  pose proof (ChatSession_get_id _ _ _ Hcs) as Hid.
  pose proof (chatbot_api_turn generate_content w m k cs display_name Hu Hcs) as H1.
  rewrite Hid in H1. fold prompt reply in H1.
  eexists _, _, _. split; [exact H1|].
  cbn [db commit_db with_db sent].
  split.
  { rewrite Chat_history_add_chat by done. by rewrite Z.eqb_refl. }
  split.
  { intros j Hj. rewrite Chat_history_add_chat by done.
    by assert ((j =? k) = false) as -> by lia. }
  split.
  { apply (chatbot_api_turn generate_content _ m2 k cs display_name); [exact Hu|exact Hcs]. }
  cbn [prompts db commit_db with_db sent at_time]. rewrite Hid.
  rewrite Chat_history_add_chat by done. rewrite Z.eqb_refl.
  rewrite (build_prompt_next (Chat_history k (db w))). cbn [Chat.question Chat.answer].
  fold prompt reply. by rewrite <- app_assoc.
Qed.

Lemma turn_extends_history_and_prompt_witness :
  let w := Desk.as_alice in
  let prompt := build_prompt (Chat_history 1 (db w)) (Some "And tomorrow?") in
  let reply := reply_text (Desk.counter (prompts w) prompt) in
  let row := Chat.mk (next_rowid (List.map Chat.id (chats (db w)))) 1 "And tomorrow?"
                     reply (now w) in
  exists w1 r2 w2,
    chatbot_api Desk.counter (Some "And tomorrow?") (Some 1) w = Ok (jsonify_reply reply) w1
    /\ Chat_history 1 (db w1) = (Chat_history 1 (db w) ++ [row])%list
    /\ (forall j, j <> 1 -> Chat_history j (db w1) = Chat_history j (db w))
    /\ chatbot_api Desk.counter (Some "Thanks") (Some 1) (at_time 50 w1) = Ok r2 w2
    /\ prompts w2
       = (prompts w
            ++ [prompt;
                prompt +:+ (" " +:+ reply +:+ nl +:+ "User: " +:+ "Thanks" +:+ nl
                            +:+ "Bot:")])%list.
Proof.
  apply (turn_extends_history_and_prompt Desk.counter Desk.as_alice
           "And tomorrow?" "Thanks" 1 50 Desk.travel (PyStr "Alice")); try reflexivity.
  intros c Hc Hk. simpl in Hc. destruct Hc as [<-|[<-|[<-|[]]]]; simpl in *; lia.
Defined.

(** ** The foreign key of the chats *)

Lemma fk_add_chat (d : DB) (k : Z) (q a : string) (t : Z) :
  chats_have_sessions d ->
  (exists s, In s (chat_sessions d) /\ ChatSession.id s = k) ->
  chats_have_sessions (add_chat k q a t d).
Proof.
  intros Hfk Hs c Hc. unfold add_chat in Hc. cbn [chats] in Hc.
  apply in_app_iff in Hc as [Hc|[<-|[]]]; [by apply Hfk|]. exact Hs.
Qed.

Lemma fk_add_chat_session (d : DB) (uid t : Z) :
  chats_have_sessions d -> chats_have_sessions (add_chat_session uid t d).
Proof.
  intros Hfk c Hc. destruct (Hfk c Hc) as (s & Hs & Hid). exists s.
  split; [|done]. unfold add_chat_session. cbn [chat_sessions].
  apply in_app_iff. by left.
Qed.

Lemma fk_update_chat_session (d : DB) (k : Z) (f : ChatSession.t -> ChatSession.t) :
  (forall s, ChatSession.id (f s) = ChatSession.id s) ->
  chats_have_sessions d -> chats_have_sessions (update_chat_session k f d).
Proof.
  intros Hf Hfk c Hc. destruct (Hfk c Hc) as (s & Hs & Hid).
  exists (if ChatSession.id s =? k then f s else s). split.
  - unfold update_chat_session. cbn [chat_sessions]. apply in_map_iff. by exists s.
  - destruct (ChatSession.id s =? k); [by rewrite Hf|done].
Qed.

Lemma session_still_there (d : DB) (k j : Z) (f : ChatSession.t -> ChatSession.t) :
  (forall s, ChatSession.id (f s) = ChatSession.id s) ->
  (exists s, In s (chat_sessions d) /\ ChatSession.id s = j) ->
  exists s, In s (chat_sessions (update_chat_session k f d)) /\ ChatSession.id s = j.
Proof.
  intros Hf (s & Hs & Hid).
  exists (if ChatSession.id s =? k then f s else s). split.
  - unfold update_chat_session. cbn [chat_sessions]. apply in_map_iff. by exists s.
  - destruct (ChatSession.id s =? k); [by rewrite Hf|done].
Qed.

Lemma fk_delete_chat_session (d : DB) (k : Z) :
  chats_have_sessions d -> chats_have_sessions (delete_chat_session k d).
Proof.
  intros Hfk c Hc. unfold delete_chat_session in *. cbn [chats chat_sessions] in *.
  apply filter_In in Hc as [Hc Hk]. destruct (Hfk c Hc) as (s & Hs & Hid).
  exists s. split; [|done]. apply filter_In. split; [done|]. by rewrite Hid.
Qed.

Lemma fk_delete_user_row (d : DB) (uid : Z) :
  chats_have_sessions d -> chats_have_sessions (delete_user_row uid d).
Proof.
  intros Hfk. unfold delete_user_row.
  assert (H : chats_have_sessions
                (fold_left (fun acc k => delete_chat_session k acc)
                           (owned_session_ids uid d) d)).
  { generalize (owned_session_ids uid d). intros ks. revert d Hfk.
    induction ks as [|k ks IH]; simpl; intros d Hfk; [done|].
    apply IH. by apply fk_delete_chat_session. }
  exact H.
Qed.

Lemma ChatSession_get_In (k : Z) (d : DB) (cs : ChatSession.t) :
  ChatSession_get k d = Some cs ->
  exists s, In s (chat_sessions d) /\ ChatSession.id s = ChatSession.id cs.
Proof.
  unfold ChatSession_get. intros H. apply find_some in H as [Hin _]. by exists cs.
Qed.

Section ForeignKey.

Variable generate_content : list string -> string -> string + string.

Lemma chatbot_post_fk (w : World) (current_session : option ChatSession.t)
    (message : option string) :
  chats_have_sessions (db w) ->
  (forall cs, current_session = Some cs ->
     exists s, In s (chat_sessions (db w)) /\ ChatSession.id s = ChatSession.id cs) ->
  chats_have_sessions
    (db (final (chatbot_post generate_content current_session message w))).
Proof.
  intros Hfk Hcur. destruct current_session as [cs|]; [|done].
  destruct (Hcur cs eq_refl) as (s & Hs & Hid).
  unfold chatbot_post. run. rewrite query_gemini_api_reply. simpl.
  destruct (String.eqb (ChatSession.summary cs) "New Chat"), message as [m|];
    simpl; try done.
  - apply fk_add_chat.
    + by apply fk_update_chat_session.
    + apply session_still_there; [done|]. by exists s.
  - apply fk_add_chat; [done|]. by exists s.
Qed.

Lemma chatbot_fk (w : World) (method : http_method) (sid message : option string) :
  chats_have_sessions (db w) ->
  chats_have_sessions (db (final (chatbot generate_content method sid message w))).
Proof.
  intros Hfk. unfold chatbot. run.
  destruct (session w !! "user") as [nm|] eqn:Hu; simpl; [|done].
  destruct (session w !! "user_id") as [uid|]; simpl; [|done].
  destruct (User_get_py uid (db w)) as [u|]; simpl; [|done].
  destruct (truthy sid).
  - destruct (PyInt.int (fmt sid)) as [k|]; simpl; [|done].
    destruct (ChatSession_get k (db w)) as [cs|] eqn:Hcs.
    + destruct method; simpl; [by rewrite Hu|].
      pose proof (chatbot_post_fk w (Some cs) message Hfk) as H.
      destruct (chatbot_post generate_content (Some cs) message w) as [[] w1|e w1];
        simpl in *.
      * assert (Hw1 : chats_have_sessions (db w1)).
        { apply H. intros ? [= <-]. by eapply ChatSession_get_In. }
        by destruct (session w1 !! "user").
      * apply H. intros ? [= <-]. by eapply ChatSession_get_In.
    + destruct (int64 k); [|done]. destruct method; simpl; done.
  - simpl. rewrite last_snoc.
    set (w0 := commit_db (with_db (add_chat_session (User.id u) (now w)) w)).
    set (cs := ChatSession.mk _ _ _ _).
    assert (Hfk0 : chats_have_sessions (db w0)) by (by apply fk_add_chat_session).
    assert (Hcs : forall cs', Some cs = Some cs' ->
               exists s, In s (chat_sessions (db w0))
                         /\ ChatSession.id s = ChatSession.id cs').
    { intros ? [= <-]. exists cs. split; [|done]. simpl. apply in_app_iff.
      right. by left. }
    destruct method; simpl.
    + change (session w) with (session w0). by destruct (session w0 !! "user").
    + pose proof (chatbot_post_fk w0 (Some cs) message Hfk0 Hcs) as H.
      change (mkWorld _ _ _ _ _ _ _) with w0.
      destruct (chatbot_post generate_content (Some cs) message w0) as [[] w1|e w1];
        simpl in *; [|done].
      by destruct (session w1 !! "user").
Qed.

Lemma chatbot_api_fk (w : World) (message : option string) (sid : option Z) :
  chats_have_sessions (db w) ->
  chats_have_sessions (db (final (chatbot_api generate_content message sid w))).
Proof.
  intros Hfk. unfold chatbot_api. run.
  destruct (session w !! "user") as [nm|]; simpl; [|done].
  destruct sid as [k|]; simpl; [|done].
  destruct (ChatSession_get k (db w)) as [cs|] eqn:Hcs; simpl;
    [|by destruct (int64 k)].
  rewrite query_gemini_api_reply. simpl.
  destruct message as [m|]; simpl; [|done].
  apply fk_add_chat; [done|]. by eapply ChatSession_get_In.
Qed.

End ForeignKey.

(** The routes keep the foreign key of the chats: if every chat belongs to
    a stored chat session before a request to a chat route or to one of the
    two delete routes, the same holds after it, however it ends. *)
Theorem chats_keep_their_sessions
    (generate_content : list string -> string -> string + string) (w : World) :
  chats_have_sessions (db w) ->
  (forall method sid message,
      chats_have_sessions (db (final (chatbot generate_content method sid message w))))
  /\ (forall message sid,
        chats_have_sessions (db (final (chatbot_api generate_content message sid w))))
  /\ (forall sid, chats_have_sessions (db (final (delete_chat sid w))))
  /\ (forall uid, chats_have_sessions (db (final (delete_user uid w)))).
Proof.
  intros Hfk.
  split; [intros; by apply chatbot_fk|].
  split; [intros; by apply chatbot_api_fk|].
  split.
  - intros sid. unfold delete_chat. by_cases. by apply fk_delete_chat_session.
  - intros uid. unfold delete_user. by_cases. by apply fk_delete_user_row.
Qed.

Lemma chats_keep_their_sessions_witness :
  (forall method sid message,
      chats_have_sessions (db (final (chatbot Sample.parrot method sid message Desk.as_alice))))
  /\ (forall message sid,
        chats_have_sessions (db (final (chatbot_api Sample.parrot message sid Desk.as_alice))))
  /\ (forall sid, chats_have_sessions (db (final (delete_chat sid Desk.as_alice))))
  /\ (forall uid, chats_have_sessions (db (final (delete_user uid Desk.as_alice)))).
Proof.
  apply (chats_keep_their_sessions Sample.parrot Desk.as_alice).
  intros c Hc. simpl in Hc.
  destruct Hc as [<-|[<-|[<-|[]]]]; [exists Desk.travel|exists Desk.travel|exists Desk.bobs];
    simpl; tauto.
Defined.

(** ** Stored chats are never rewritten *)

(** No route updates a chat, and only the two delete routes remove one: a
    request to any other route leaves the stored chats as they are, the chat
    routes adding at most one row at the end. *)
Theorem chats_only_grow
    (generate_content : list string -> string -> string + string) (w : World) :
  (forall method sid message,
      exists added,
        chats (db (final (chatbot generate_content method sid message w)))
        = (chats (db w) ++ added)%list /\ (List.length added <= 1)%nat)
  /\ (forall message sid,
        exists added,
          chats (db (final (chatbot_api generate_content message sid w)))
          = (chats (db w) ++ added)%list /\ (List.length added <= 1)%nat)
  /\ (forall name email password,
        chats (db (final (signup name email password w))) = chats (db w))
  /\ (forall email password, chats (db (final (signin email password w))) = chats (db w))
  /\ (forall uid, chats (db (final (block_user uid w))) = chats (db w))
  /\ chats (db (final (admin_dashboard w))) = chats (db w)
  /\ chats (db (final (logout w))) = chats (db w).
Proof.
  split.
  { intros method sid message.
    unfold chatbot, chatbot_post, add_chat_and_commit, query_gemini_api.
    by_cases;
      first [exists []; split; [by rewrite app_nil_r|simpl; lia]
            |eexists [_]; split; [reflexivity|simpl; lia]]. }
  split.
  { intros message sid.
    unfold chatbot_api, add_chat_and_commit, query_gemini_api.
    by_cases;
      first [exists []; split; [by rewrite app_nil_r|simpl; lia]
            |eexists [_]; split; [reflexivity|simpl; lia]]. }
  split; [intros; unfold signup; by_cases|].
  split; [intros; unfold signin; by_cases|].
  split; [intros; unfold block_user; by_cases|].
  split; [unfold admin_dashboard; by_cases|].
  unfold logout. by_cases.
Qed.

(** ** The summary on the page route *)

Lemma ChatSession_get_update (k j : Z) (f : ChatSession.t -> ChatSession.t) (d : DB) :
  (forall s, ChatSession.id (f s) = ChatSession.id s) ->
  ChatSession_get j (update_chat_session k f d)
  = if j =? k then f <$> ChatSession_get j d else ChatSession_get j d.
Proof.
  intros Hf. unfold ChatSession_get, update_chat_session. cbn [chat_sessions].
  induction (chat_sessions d) as [|x l IH]; simpl.
  - by destruct (j =? k).
  - destruct (ChatSession.id x =? k) eqn:Exk.
    + rewrite Hf. destruct (ChatSession.id x =? j) eqn:Exj.
      * by assert ((j =? k) = true) as -> by lia.
      * apply IH.
    + destruct (ChatSession.id x =? j) eqn:Exj.
      * by assert ((j =? k) = false) as -> by lia.
      * apply IH.
Qed.

(** A turn on the page route writes the summary only over the default:
    a session whose summary is ["New Chat"] gets the first 50 code points
    of the message (the whole message when it has no more), any other
    session row is read back as it was, and so is every other session. *)
Theorem page_turn_sets_default_summary_only
    (generate_content : list string -> string -> string + string)
    (w : World) (m s : string) (k : Z) (cs : ChatSession.t)
    (uid display_name : pyval) (u : User.t) :
  session w !! "user" = Some display_name ->
  session w !! "user_id" = Some uid ->
  User_get_py uid (db w) = Some u ->
  truthy (Some s) = true ->
  PyInt.int s = Some k ->
  ChatSession_get k (db w) = Some cs ->
  exists r w',
    chatbot generate_content POST (Some s) (Some m) w = Ok r w'
    /\ ChatSession_get k (db w')
       = Some (if String.eqb (ChatSession.summary cs) "New Chat"
               then ChatSession.set_summary (slice_to 50 m) cs
               else cs)
    /\ (py_len (slice_to 50 m) <= 50)%nat
    /\ ((py_len m <= 50)%nat -> slice_to 50 m = m)
    /\ (forall j, j <> k -> ChatSession_get j (db w') = ChatSession_get j (db w)).
Proof.
  intros Hu Hid Hget Hs Hk Hcs.
  pose proof (ChatSession_get_id _ _ _ Hcs) as Hcsid.
  eexists _, _. split.
  { by apply (chatbot_existing_post generate_content w m s k cs uid display_name u). }
  assert (Hdb : forall j a b c d (w0 : World),
             ChatSession_get j (db (commit_db (with_db (add_chat a b c d) w0)))
             = ChatSession_get j (db w0)) by done.
  split; [|split; [apply slice_to_length|split; [apply slice_to_short|]]].
  - rewrite Hdb, summary_step_db. unfold summarised. cbn [db sent]. rewrite Hcsid.
    destruct (String.eqb (ChatSession.summary cs) "New Chat"); [|done].
    rewrite ChatSession_get_update by done. by rewrite Z.eqb_refl, Hcs.
  - intros j Hj. rewrite Hdb, summary_step_db. unfold summarised. cbn [db sent].
    rewrite Hcsid.
    destruct (String.eqb (ChatSession.summary cs) "New Chat"); [|done].
    rewrite ChatSession_get_update by done.
    by assert ((j =? k) = false) as -> by lia.
Qed.

Lemma page_turn_sets_default_summary_only_witness :
  exists r w',
    chatbot Sample.parrot POST (Some "3") (Some "Plan a trip") Desk.as_alice = Ok r w'
    /\ ChatSession_get 3 (db w')
       = Some (if String.eqb (ChatSession.summary Desk.empty) "New Chat"
               then ChatSession.set_summary (slice_to 50 "Plan a trip") Desk.empty
               else Desk.empty)
    /\ (py_len (slice_to 50 "Plan a trip") <= 50)%nat
    /\ ((py_len "Plan a trip" <= 50)%nat -> slice_to 50 "Plan a trip" = "Plan a trip")
    /\ (forall j, j <> 3 -> ChatSession_get j (db w') = ChatSession_get j (db Desk.as_alice)).
Proof.
  apply (page_turn_sets_default_summary_only Sample.parrot Desk.as_alice
           "Plan a trip" "3" 3 Desk.empty (PyInt 2) (PyStr "Alice") Desk.alice);
    reflexivity.
Defined.

(** ** The primary keys of the chat tables *)

Lemma NoDup_snoc_fresh (ids : list Z) :
  NoDup ids -> NoDup (ids ++ [next_rowid ids]).
Proof.
  intros H. apply NoDup_app. split; [done|]. split; [|apply NoDup_singleton].
  intros x Hx [<-|[]]%list_elem_of_In. apply list_elem_of_In in Hx.
  by apply next_rowid_fresh in Hx.
Qed.

Lemma ck_add_chat (d : DB) (k : Z) (q a : string) (t : Z) :
  chat_keys_unique d -> chat_keys_unique (add_chat k q a t d).
Proof.
  intros [H1 H2]. split; [done|]. unfold add_chat. cbn [chats].
  rewrite List.map_app. by apply NoDup_snoc_fresh.
Qed.

Lemma ck_add_chat_session (d : DB) (uid t : Z) :
  chat_keys_unique d -> chat_keys_unique (add_chat_session uid t d).
Proof.
  intros [H1 H2]. split; [|done]. unfold add_chat_session. cbn [chat_sessions].
  rewrite List.map_app. by apply NoDup_snoc_fresh.
Qed.

Lemma ck_update_chat_session (d : DB) (k : Z) (f : ChatSession.t -> ChatSession.t) :
  (forall s, ChatSession.id (f s) = ChatSession.id s) ->
  chat_keys_unique d -> chat_keys_unique (update_chat_session k f d).
Proof.
  intros Hf [H1 H2]. split; [|done]. unfold update_chat_session. cbn [chat_sessions].
  rewrite List.map_map. rewrite (List.map_ext _ ChatSession.id); [done|].
  intros s. by destruct (ChatSession.id s =? k).
Qed.

Lemma ck_delete_chat_session (d : DB) (k : Z) :
  chat_keys_unique d -> chat_keys_unique (delete_chat_session k d).
Proof.
  intros [H1 H2]. split; by apply NoDup_map_filter.
Qed.

Lemma ck_delete_user_row (d : DB) (uid : Z) :
  chat_keys_unique d -> chat_keys_unique (delete_user_row uid d).
Proof.
  intros Hck. unfold delete_user_row.
  assert (H : chat_keys_unique
                (fold_left (fun acc k => delete_chat_session k acc)
                           (owned_session_ids uid d) d)).
  { generalize (owned_session_ids uid d). intros ks. revert d Hck.
    induction ks as [|k ks IH]; simpl; intros d Hck; [done|].
    apply IH. by apply ck_delete_chat_session. }
  exact H.
Qed.

(** The routes keep the primary keys of the two chat tables unique: new
    rows get a key larger than every key in use, and nothing else writes a
    key. *)
Theorem chat_tables_keys_kept
    (generate_content : list string -> string -> string + string) (w : World) :
  chat_keys_unique (db w) ->
  (forall method sid message,
      chat_keys_unique (db (final (chatbot generate_content method sid message w))))
  /\ (forall message sid,
        chat_keys_unique (db (final (chatbot_api generate_content message sid w))))
  /\ (forall sid, chat_keys_unique (db (final (delete_chat sid w))))
  /\ (forall uid, chat_keys_unique (db (final (delete_user uid w)))).
Proof.
  intros Hck.
  assert (Hset : forall m s, ChatSession.id (ChatSession.set_summary m s) = ChatSession.id s)
    by done.
  split.
  { intros method sid message.
    unfold chatbot, chatbot_post, add_chat_and_commit, query_gemini_api.
    by_cases; unfold commit_db, with_db, sent; cbn [db];
      auto using ck_add_chat, ck_add_chat_session, ck_update_chat_session. }
  split.
  { intros message sid.
    unfold chatbot_api, add_chat_and_commit, query_gemini_api.
    by_cases; unfold commit_db, with_db, sent; cbn [db]; auto using ck_add_chat. }
  split.
  - intros sid. unfold delete_chat. by_cases. by apply ck_delete_chat_session.
  - intros uid. unfold delete_user. by_cases. by apply ck_delete_user_row.
Qed.

Lemma chat_tables_keys_kept_witness :
  (forall method sid message,
      chat_keys_unique (db (final (chatbot Sample.parrot method sid message Desk.as_alice))))
  /\ (forall message sid,
        chat_keys_unique (db (final (chatbot_api Sample.parrot message sid Desk.as_alice))))
  /\ (forall sid, chat_keys_unique (db (final (delete_chat sid Desk.as_alice))))
  /\ (forall uid, chat_keys_unique (db (final (delete_user uid Desk.as_alice)))).
Proof.
  apply (chat_tables_keys_kept Sample.parrot Desk.as_alice).
  split; apply (bool_decide_unpack _); vm_compute; reflexivity.
Defined.
